(** * The per-window controller of [app/ui/window.js]

    A shallow embedding of the session multiplexing protocol of the window
    controller: the session registry ([sessions], a JavaScript [Map]), the
    initial-session warmer ([createInitialSession] and its [flushEvents]),
    the inbound handlers registered on the RPC channel, the navigation
    counter and the two variants of [window.clean].

    The collaborators the file only calls ([Session], the RPC channel, the
    configuration store, the plugin host, the native window) are not
    executed: every call made on them is appended to a log, and what they
    return is read from the environment record [Env].

    Handlers that touch neither the sessions nor the channel's session
    messages (['init'], ['open external'], the menus, ['command'], the
    navigation interceptors and the focus time) are left out. *)

From Stdlib Require Import ZArith NArith Lia Ascii String DecimalString.
From stdpp Require Import base list strings.

Set Default Proof Using "Type".

(** ** JavaScript strings *)

Definition squote : ascii := "'"%char.
Definition dquote : ascii := "034"%char.
Definition backslash : ascii := "\"%char.

(** [String.prototype.endsWith]. *)
Definition endsWith (s suffix : string) : bool :=
  let n := String.length s in
  let m := String.length suffix in
  (m <=? n)%nat && String.eqb (substring (n - m) m s) suffix.

(** [data.replace(/'/g, `'\\''`)]: every single quote becomes the four
    characters quote, backslash, quote, quote. *)
Fixpoint replace_quotes (data : string) : string :=
  match data with
  | EmptyString => EmptyString
  | String c rest =>
      if Ascii.eqb c squote
      then String squote (String backslash (String squote (String squote (replace_quotes rest))))
      else String c (replace_quotes rest)
  end.

(** The value of [escapedData] in the ['data'] handler. *)
Definition escapedData (shell data : string) : string :=
  if endsWith shell "cmd.exe"
  then String dquote (data +:+ String dquote EmptyString)
  else String squote (replace_quotes data +:+ String squote EmptyString).

(** A string is truthy when it is defined and not empty. *)
Definition truthy (s : option string) : bool :=
  match s with
  | Some (String _ _) => true
  | _ => false
  end.

(** ** The destination shells

    What the shell that reads an escaped write makes of it. The write goes
    to the pseudo-terminal of the session, so the bytes pass the terminal
    and the shell's line editor before the shell's quoting rules see them.
    Both functions return the one literal word a command-line fragment
    stands for, or [None] when the fragment is not one literal word: a
    quote is left open, a character the shell interprets stands outside
    quotes, or the fragment holds a control byte, which the terminal or the
    line editor acts on (erase, kill the line, interrupt, complete) instead
    of handing it to the shell as text. *)

Definition nul : ascii := "000"%char.
Definition tab : ascii := "009"%char.
Definition newline : ascii := "010"%char.
Definition percent : ascii := "%"%char.

(** The control bytes: codes below 32, and 127. *)
Definition is_control (c : ascii) : bool :=
  (N_of_ascii c <? 32)%N || (N_of_ascii c =? 127)%N.

(** Characters a POSIX shell interprets when they are not quoted. *)
Definition sh_special (c : ascii) : bool :=
  existsb (Ascii.eqb c)
    [ "|"; "&"; ";"; "<"; ">"; "("; ")"; "$"; "`"; backslash; dquote; squote;
      " "; tab; newline; "*"; "?"; "["; "#"; "~"; "="; "%"; "!"; "{"; "}" ]%char.

(** Where the shell is in a word: outside quotes, between single quotes,
    or right after a backslash outside quotes. *)
Inductive sh_state :=
| sh_plain
| sh_quoted
| sh_escaped.

(** POSIX quoting as the shell behind the terminal applies it. A NUL byte
    is dropped wherever it stands; any other control byte is not text
    ([None]); between single quotes every other character is literal;
    outside them a backslash makes the next character literal. *)
Fixpoint sh_word (st : sh_state) (s : string) : option string :=
  match s with
  | EmptyString =>
      match st with
      | sh_plain => Some EmptyString
      | _ => None
      end
  | String c rest =>
      if Ascii.eqb c nul then sh_word st rest
      else if is_control c then None
      else
        match st with
        | sh_quoted =>
            if Ascii.eqb c squote then sh_word sh_plain rest
            else option_map (String c) (sh_word sh_quoted rest)
        | sh_escaped => option_map (String c) (sh_word sh_plain rest)
        | sh_plain =>
            if Ascii.eqb c squote then sh_word sh_quoted rest
            else if Ascii.eqb c backslash then sh_word sh_escaped rest
            else if sh_special c then None
            else option_map (String c) (sh_word sh_plain rest)
        end
  end.

Definition sh_eval : string -> option string := sh_word sh_plain.

(** Characters cmd.exe interprets outside double quotes. *)
Definition cmd_special (c : ascii) : bool :=
  existsb (Ascii.eqb c) [ "&"; "|"; "<"; ">"; "("; ")"; "^"; "%"; " "; tab; newline ]%char.

(** cmd.exe quoting: every double quote opens or closes a quoted stretch
    and there is no escape for the quote; a percent sign starts a variable
    expansion inside quotes as well as outside, so it is not text
    ([None]), like the control bytes; every other character of a quoted
    stretch is literal. *)
Fixpoint cmd_word (quoted : bool) (s : string) : option string :=
  match s with
  | EmptyString => if quoted then None else Some EmptyString
  | String c rest =>
      if is_control c then None
      else if Ascii.eqb c dquote then cmd_word (negb quoted) rest
      else if Ascii.eqb c percent then None
      else if quoted then option_map (String c) (cmd_word true rest)
      else if cmd_special c then None
      else option_map (String c) (cmd_word false rest)
  end.

Definition cmd_eval : string -> option string := cmd_word false.

(** The shell family is chosen as the ['data'] handler chooses it. *)
Definition shell_eval (shell : string) : string -> option string :=
  if endsWith shell "cmd.exe" then cmd_eval else sh_eval.

Fixpoint all_chars (p : ascii -> bool) (s : string) : bool :=
  match s with
  | EmptyString => true
  | String c rest => p c && all_chars p rest
  end.

(** Data without control bytes. *)
Definition printable (data : string) : bool :=
  all_chars (fun c => negb (is_control c)) data.


(** ** Data *)

(** [cfg]: the fields of the configuration snapshot the controller reads. *)
Record config := mkConfig {
  cfg_shell : option string;
  cfg_shellArgs : option (list string);
  cfg_backgroundColor : option string
}.

(** The options object of a ["new"] request; [None] is an absent property. *)
Record new_options := mkOptions {
  o_rows : option Z;
  o_cols : option Z;
  o_cwd : option string;
  o_splitDirection : option string;
  o_shell : option string;
  o_shellArgs : option (list string)
}.

Definition no_options : new_options := mkOptions None None None None None None.

(** [sessionOpts]: the defaults of the ["new"] handler overridden by the
    request's options ([Object.assign]). *)
Record session_opts := mkSessionOpts {
  rows : Z;
  cols : Z;
  cwd : string;
  splitDirection : option string;
  shell : option string;
  shellArgs : option (list string)
}.

(** The argument of [new Session(...)] in [createSession]:
    [Object.assign({}, options, {uid})]. *)
Record session_ctor := mkCtor {
  c_options : new_options;
  c_uid : string
}.

(** Listeners are closures; each constructor is one closure of the source
    with the variables it captures. *)
Inductive data_listener :=
| handleData (uid : string)      (* the warmer's: pushes onto initialEvents *)
| forwardData (uid : string).    (* data => rpc.emit('session data', uid + data) *)

Inductive exit_listener :=
| handleExit                     (* the warmer's: pushes ['session exit'] *)
| forwardExit (uid : string).    (* rpc.emit('session exit', {uid}); sessions.delete(uid) *)

Definition data_listener_eqb (a b : data_listener) : bool :=
  match a, b with
  | handleData u, handleData v => String.eqb u v
  | forwardData u, forwardData v => String.eqb u v
  | _, _ => false
  end.

Definition exit_listener_eqb (a b : exit_listener) : bool :=
  match a, b with
  | handleExit, handleExit => true
  | forwardExit u, forwardExit v => String.eqb u v
  | _, _ => false
  end.

(** A [Session] object as the controller sees it: what it was constructed
    with, the two attributes the controller reads, and its listeners in
    registration order. *)
Record session := mkSession {
  s_ctor : session_ctor;
  s_shell : string;
  s_pid : Z;
  on_data : list data_listener;
  on_exit : list exit_listener
}.

(** Payload of the outbound ['session add']. *)
Record session_add_payload := mkAdd {
  a_rows : Z;
  a_cols : Z;
  a_uid : string;
  a_splitDirection : option string;
  a_shell : string;
  a_pid : Z
}.

(** What [rpc.emit] sends to the UI. The payload of ['session exit'] is an
    object [{uid}] or is missing ([None]). *)
Inductive rpc_out :=
| session_add (p : session_add_payload)
| session_data (payload : string)
| session_exit (payload : option string)
| windowGeometry_change
| move.

(** Calls made on the collaborators, in the order they are made. Sessions
    are named by their reference (the index of the object in the heap). *)
Inductive call :=
| config_subscribe
| createRPC
| rpc_emit (m : rpc_out)
| new_Session (r : nat) (c : session_ctor)
| session_write (r : nat) (data : string)
| session_resize (r : nat) (cols rows : Z)
| session_exit_call (r : nat)
| session_removeAllListeners (r : nat)
| session_destroy (r : nat)
| winRecord
| rpc_destroy
| cfgUnsubscribe
| pluginsUnsubscribe
| plugins_onWindow
| plugins_subscribe
| window_unmaximize
| window_maximize
| window_minimize
| window_close
| webContents_send (channel : string)
| notify_shell_changed
| setBackgroundColor (color : string).

(** The message a call sends to the UI, if it is an [rpc.emit]. *)
Definition sent (c : call) : option rpc_out :=
  match c with
  | rpc_emit m => Some m
  | _ => None
  end.

(** Which function [window.clean] currently holds. *)
Inductive clean_kind :=
| clean_undefined
| clean_without_rpc     (* the win32 variant assigned by the constructor *)
| clean_with_rpc.       (* the one assigned by attachRPC *)

(** The state of one window: the variables of the constructor and of the
    [attachRPC] closure, the session objects, and the log. The last two
    fields count the invocations of the two local functions; the code does
    not read them. *)
Record window := mkWindow {
  cfg : config;
  clean : clean_kind;
  rpc_attached : bool;
  workingDirectory : option string;
  sessions : list (string * nat);
  heap : list session;
  initialEvents : list rpc_out;
  initialSession : option (string * nat);
  i : N;
  log : list call;
  flushEvents_calls : nat;
  deleteSessions_calls : nat
}.

(** The environment of the process and the results of the collaborators. *)
Record Env := mkEnv {
  win32 : bool;                         (* process.platform === 'win32' *)
  argv1 : option string;                (* process.argv[1] *)
  cfgDir : string;
  isAbsolute : string -> bool;
  uuid_v4 : nat -> string;              (* the n-th identifier this window draws *)
  Session_shell : session_ctor -> string;
  Session_pid : nat -> Z;               (* session.pty.pid of the n-th session *)
  toElectronBackgroundColor : string -> string
}.

(** ** Field updates

    Each update rebuilds the record with one field changed; the pattern
    binds the fields in the order of their declaration. *)

Definition set_cfg (c : config) (w : window) : window :=
  let '(mkWindow c0 k0 a0 wd0 m0 h0 b0 s0 n0 l0 f0 d0) := w in
  mkWindow c k0 a0 wd0 m0 h0 b0 s0 n0 l0 f0 d0.

Definition set_clean (k : clean_kind) (w : window) : window :=
  let '(mkWindow c0 k0 a0 wd0 m0 h0 b0 s0 n0 l0 f0 d0) := w in
  mkWindow c0 k a0 wd0 m0 h0 b0 s0 n0 l0 f0 d0.

Definition set_sessions (m : list (string * nat)) (w : window) : window :=
  let '(mkWindow c0 k0 a0 wd0 m0 h0 b0 s0 n0 l0 f0 d0) := w in
  mkWindow c0 k0 a0 wd0 m h0 b0 s0 n0 l0 f0 d0.

Definition set_heap (h : list session) (w : window) : window :=
  let '(mkWindow c0 k0 a0 wd0 m0 h0 b0 s0 n0 l0 f0 d0) := w in
  mkWindow c0 k0 a0 wd0 m0 h b0 s0 n0 l0 f0 d0.

Definition set_initialEvents (b : list rpc_out) (w : window) : window :=
  let '(mkWindow c0 k0 a0 wd0 m0 h0 b0 s0 n0 l0 f0 d0) := w in
  mkWindow c0 k0 a0 wd0 m0 h0 b s0 n0 l0 f0 d0.

Definition set_initialSession (s : option (string * nat)) (w : window) : window :=
  let '(mkWindow c0 k0 a0 wd0 m0 h0 b0 s0 n0 l0 f0 d0) := w in
  mkWindow c0 k0 a0 wd0 m0 h0 b0 s n0 l0 f0 d0.

Definition set_i (n : N) (w : window) : window :=
  let '(mkWindow c0 k0 a0 wd0 m0 h0 b0 s0 n0 l0 f0 d0) := w in
  mkWindow c0 k0 a0 wd0 m0 h0 b0 s0 n l0 f0 d0.

Definition do_calls (cs : list call) (w : window) : window :=
  let '(mkWindow c0 k0 a0 wd0 m0 h0 b0 s0 n0 l0 f0 d0) := w in
  mkWindow c0 k0 a0 wd0 m0 h0 b0 s0 n0 (l0 ++ cs) f0 d0.

Definition do_call (c : call) : window -> window := do_calls [c].

Definition count_flushEvents (w : window) : window :=
  let '(mkWindow c0 k0 a0 wd0 m0 h0 b0 s0 n0 l0 f0 d0) := w in
  mkWindow c0 k0 a0 wd0 m0 h0 b0 s0 n0 l0 (S f0) d0.

Definition count_deleteSessions (w : window) : window :=
  let '(mkWindow c0 k0 a0 wd0 m0 h0 b0 s0 n0 l0 f0 d0) := w in
  mkWindow c0 k0 a0 wd0 m0 h0 b0 s0 n0 l0 f0 (S d0).

(** The handlers of [attachRPC] are registered and its argument is bound. *)
Definition set_attached (wd : option string) (w : window) : window :=
  let '(mkWindow c0 k0 _ _ m0 h0 b0 s0 n0 l0 f0 d0) := w in
  mkWindow c0 k0 true wd m0 h0 b0 s0 n0 l0 f0 d0.

(** [rpc.emit(...)]. *)
Definition emit (m : rpc_out) (w : window) : window := do_call (rpc_emit m) w.

(** ** The registry: a [Map] keeps its entries in insertion order *)

Fixpoint map_set (k : string) (v : nat) (m : list (string * nat)) : list (string * nat) :=
  match m with
  | [] => [(k, v)]
  | (k', v') :: m' =>
      if String.eqb k' k then (k, v) :: m' else (k', v') :: map_set k v m'
  end.

Fixpoint map_get (k : string) (m : list (string * nat)) : option nat :=
  match m with
  | [] => None
  | (k', v) :: m' => if String.eqb k' k then Some v else map_get k m'
  end.

Fixpoint map_delete (k : string) (m : list (string * nat)) : list (string * nat) :=
  match m with
  | [] => []
  | (k', v) :: m' =>
      if String.eqb k' k then map_delete k m' else (k', v) :: map_delete k m'
  end.

(** ** Listener lists of an [EventEmitter] *)

Section RemoveListener.
Context {A : Type} (eqb : A -> A -> bool).

Fixpoint remove_first (x : A) (l : list A) : list A :=
  match l with
  | [] => []
  | y :: l' => if eqb y x then l' else y :: remove_first x l'
  end.

(** [removeListener] removes the most recently added instance. *)
Definition removeListener (x : A) (l : list A) : list A :=
  rev (remove_first x (rev l)).
End RemoveListener.

(** Update of the session object behind reference [r]. *)
Definition update_session (r : nat) (f : session -> session) (w : window) : window :=
  set_heap (alter f r (heap w)) w.

Definition set_on_data (l : list data_listener) (s : session) : session :=
  mkSession (s_ctor s) (s_shell s) (s_pid s) l (on_exit s).

Definition set_on_exit (l : list exit_listener) (s : session) : session :=
  mkSession (s_ctor s) (s_shell s) (s_pid s) (on_data s) l.

Definition session_on_data (r : nat) (l : data_listener) : window -> window :=
  update_session r (fun s => set_on_data (on_data s ++ [l]) s).

Definition session_on_exit (r : nat) (l : exit_listener) : window -> window :=
  update_session r (fun s => set_on_exit (on_exit s ++ [l]) s).

Definition removeAllListeners (s : session) : session :=
  mkSession (s_ctor s) (s_shell s) (s_pid s) [] [].

Definition data_listeners (r : nat) (w : window) : list data_listener :=
  match heap w !! r with Some s => on_data s | None => [] end.

Definition exit_listeners (r : nat) (w : window) : list exit_listener :=
  match heap w !! r with Some s => on_exit s | None => [] end.

(** ** The controller *)

Section Controller.
Variable E : Env.

(** [createSession(options)]: one identifier drawn, one [Session]
    constructed, one registry entry. The new object gets the next free
    reference. *)
Definition createSession (options : new_options) (w : window) : (string * nat) * window :=
  let r := length (heap w) in
  let uid := uuid_v4 E r in
  let c := mkCtor options uid in
  let s := mkSession c (Session_shell E c) (Session_pid E r) [] [] in
  let w1 := do_call (new_Session r c) (set_heap (heap w ++ [s]) w) in
  ((uid, r), set_sessions (map_set uid r (sessions w1)) w1).

(** [createInitialSession()] followed by the assignment to
    [initialSession]. *)
Definition createInitialSession (w : window) : window :=
  let '((uid, r), w1) := createSession no_options w in
  let w2 := set_initialEvents [] w1 in
  let w3 := session_on_data r (handleData uid) w2 in
  let w4 := session_on_exit r handleExit w3 in
  set_initialSession (Some (uid, r)) w4.

(** [flushEvents()], a closure over the warmed session [r] and its
    [uid]. *)
Definition flushEvents (uid : string) (r : nat) (w : window) : window :=
  let w1 := fold_left (fun w' args => emit args w') (initialEvents w) (count_flushEvents w) in
  let w2 := update_session r
              (fun s => set_on_data (removeListener data_listener_eqb (handleData uid) (on_data s)) s) w1 in
  update_session r
    (fun s => set_on_exit (removeListener exit_listener_eqb handleExit (on_exit s)) s) w2.

(** The working directory computed by the ["new"] handler. *)
Definition new_cwd (w : window) : string :=
  match workingDirectory w with
  | Some (String c d) => String c d
  | _ =>
      match argv1 E with
      | Some (String c a) => if isAbsolute E (String c a) then String c a else cfgDir E
      | _ => cfgDir E
      end
  end.

(** [Object.assign({rows: 40, cols: 100, cwd, ...}, options)]. *)
Definition sessionOpts (w : window) (options : option new_options) : session_opts :=
  let o := default no_options options in
  mkSessionOpts
    (default 40%Z (o_rows o))
    (default 100%Z (o_cols o))
    (default (new_cwd w) (o_cwd o))
    (o_splitDirection o)
    (match o_shell o with Some s => Some s | None => cfg_shell (cfg w) end)
    (match o_shellArgs o with Some a => Some a | None => cfg_shellArgs (cfg w) end).

Definition session_shell_of (r : nat) (w : window) : string :=
  match heap w !! r with Some s => s_shell s | None => EmptyString end.

Definition session_pid_of (r : nat) (w : window) : Z :=
  match heap w !! r with Some s => s_pid s | None => 0%Z end.

(** [rpc.on('new', options => ...)]. *)
Definition on_new (options : option new_options) (w : window) : window :=
  let so := sessionOpts w options in
  let '((uid, r), w1) :=
    match initialSession w with
    | Some p => (p, w)
    | None => createSession no_options w
    end in
  let w2 := set_sessions (map_set uid r (sessions w1)) w1 in
  let w3 := emit (session_add (mkAdd (rows so) (cols so) uid (splitDirection so)
                                 (session_shell_of r w2) (session_pid_of r w2))) w2 in
  let w4 :=
    match initialSession w3 with
    | Some (uid0, r0) => set_initialSession None (flushEvents uid0 r0 w3)
    | None => w3
    end in
  session_on_exit r (forwardExit uid) (session_on_data r (forwardData uid) w4).

(** [rpc.on('exit', ({uid}) => ...)]. *)
Definition on_exit_req (uid : string) (w : window) : window :=
  match map_get uid (sessions w) with
  | Some r => do_call (session_exit_call r) w
  | None => w
  end.

(** [rpc.on('resize', ({uid, cols, rows}) => ...)]. *)
Definition on_resize (uid : string) (cols rows : Z) (w : window) : window :=
  match map_get uid (sessions w) with
  | Some r => do_call (session_resize r cols rows) w
  | None => w
  end.

(** [rpc.on('data', ({uid, data, escaped}) => ...)]. *)
Definition on_data_req (uid data : string) (escaped : bool) (w : window) : window :=
  match map_get uid (sessions w) with
  | Some r =>
      if escaped
      then do_call (session_write r (escapedData (session_shell_of r w) data)) w
      else do_call (session_write r data) w
  | None => w
  end.

(** [deleteSessions()]: [sessions.forEach] visits the entries in
    insertion order and skips an entry that was deleted before its turn. *)
Definition deleteSessions_entry (w : window) (entry : string * nat) : window :=
  let '(key, r) := entry in
  match map_get key (sessions w) with
  | Some _ =>
      let w1 := do_call (session_removeAllListeners r) (update_session r removeAllListeners w) in
      let w2 := do_call (session_destroy r) w1 in
      set_sessions (map_delete key (sessions w2)) w2
  | None => w
  end.

Definition deleteSessions (w : window) : window :=
  fold_left deleteSessions_entry (sessions w) (count_deleteSessions w).

(** [i++] on a double: the counter stops growing at 2^53. *)
Definition incr (n : N) : N := if (n <? 2 ^ 53)%N then (n + 1)%N else n.

(** [window.webContents.on('did-navigate', () => { if (i++) deleteSessions(); })]. *)
Definition on_did_navigate (w : window) : window :=
  let old := i w in
  let w1 := set_i (incr old) w in
  if (old =? 0)%N then w1 else deleteSessions w1.

(** [updateBackgroundColor()], with the decorated configuration it
    reads. *)
Definition updateBackgroundColor (cfg_ : config) (w : window) : window :=
  let color := match cfg_backgroundColor cfg_ with
               | Some (String c s) => String c s
               | _ => "#000"
               end in
  do_call (setBackgroundColor (toElectronBackgroundColor E color)) w.

(** The callback given to [app.config.subscribe]. *)
Definition on_config_change (cfg_ : config) (w : window) : window :=
  let w1 := do_call (webContents_send "config change") w in
  let changed := negb (bool_decide (cfg_shell cfg_ = cfg_shell (cfg w)))
                 || negb (bool_decide (cfg_shellArgs cfg_ = cfg_shellArgs (cfg w))) in
  let w2 := if changed then do_call notify_shell_changed w1 else w1 in
  set_cfg cfg_ (updateBackgroundColor cfg_ w2).

(** The callback given to [app.plugins.subscribe]. *)
Definition on_plugins_change (err : bool) (cfg_ : config) (w : window) : window :=
  if err then w
  else updateBackgroundColor cfg_
         (do_call (webContents_send "plugins change") (do_call plugins_onWindow w)).

(** The two functions assigned to [window.clean]. *)
Definition clean_rpc (w : window) : window :=
  do_call pluginsUnsubscribe
    (do_call cfgUnsubscribe
       (deleteSessions (do_call rpc_destroy (do_call winRecord w)))).

Definition clean_no_rpc (w : window) : window :=
  do_call cfgUnsubscribe (do_call winRecord w).

(** A session object emits ['data'] or ['exit']: its listeners run in
    registration order. *)
Definition run_data_listener (data : string) (w : window) (l : data_listener) : window :=
  match l with
  | handleData uid => set_initialEvents (initialEvents w ++ [session_data (uid +:+ data)]) w
  | forwardData uid => emit (session_data (uid +:+ data)) w
  end.

Definition run_exit_listener (w : window) (l : exit_listener) : window :=
  match l with
  | handleExit => set_initialEvents (initialEvents w ++ [session_exit None]) w
  | forwardExit uid =>
      let w1 := emit (session_exit (Some uid)) w in
      set_sessions (map_delete uid (sessions w1)) w1
  end.

Definition session_emits_data (r : nat) (data : string) (w : window) : window :=
  fold_left (run_data_listener data) (data_listeners r w) w.

Definition session_emits_exit (r : nat) (w : window) : window :=
  fold_left run_exit_listener (exit_listeners r w) w.

(** [attachRPC(workingDirectory)], for the one call a window gets (from
    the constructor, or later on win32). *)
Definition attachRPC (wd : option string) (w : window) : window :=
  let w1 := do_call createRPC w in
  let w2 := createInitialSession w1 in
  let w3 := set_i 0%N w2 in
  let w4 := do_call plugins_subscribe (do_call plugins_onWindow w3) in
  set_attached wd (set_clean clean_with_rpc w4).

(** The constructor: [attachRPC] is delayed on win32. *)
Definition Window (cfg0 : config) : window :=
  let w := mkWindow cfg0 clean_undefined false None [] [] [] None 0%N [config_subscribe] 0 0 in
  if win32 E then set_clean clean_without_rpc w else attachRPC None w.

(** ** Events *)

Record resize_payload := mkResize { rz_uid : string; rz_cols : Z; rz_rows : Z }.
Record data_payload := mkData { d_uid : string; d_data : string; d_escaped : bool }.

(** What can happen to a window. The payload of an inbound message that
    is destructured by its handler may be missing ([None]). *)
Inductive event :=
| rpc_new (options : option new_options)
| rpc_exit (payload : option string)
| rpc_resize (payload : option resize_payload)
| rpc_data (payload : option data_payload)
| rpc_unmaximize
| rpc_maximize
| rpc_minimize
| rpc_close
| window_geometry            (* 'maximize', 'unmaximize', 'minimize', 'restore' *)
| window_move
| did_navigate
| config_changed (cfg_ : config)
| plugins_changed (err : bool) (cfg_ : config)
| window_clean
| session_emit_data (r : nat) (data : string)
| session_emit_exit (r : nat).

Inductive js_error := TypeError.

Inductive result :=
| Ok (w : window)
| Threw (e : js_error).

(** A handler registered by [attachRPC] exists once the channel is
    attached; before that the event has no listener. *)
Definition attached (h : window -> window) (w : window) : result :=
  if rpc_attached w then Ok (h w) else Ok w.

(** Parameter destructuring of a missing payload throws before the
    handler body runs. *)
Definition destructure {A : Type} (payload : option A) (h : A -> window -> window)
    (w : window) : result :=
  if rpc_attached w
  then match payload with
       | Some p => Ok (h p w)
       | None => Threw TypeError
       end
  else Ok w.

Definition step (w : window) (e : event) : result :=
  match e with
  | rpc_new options => attached (on_new options) w
  | rpc_exit payload => destructure payload on_exit_req w
  | rpc_resize payload =>
      destructure payload (fun p => on_resize (rz_uid p) (rz_cols p) (rz_rows p)) w
  | rpc_data payload =>
      destructure payload (fun p => on_data_req (d_uid p) (d_data p) (d_escaped p)) w
  | rpc_unmaximize => attached (do_call window_unmaximize) w
  | rpc_maximize => attached (do_call window_maximize) w
  | rpc_minimize => attached (do_call window_minimize) w
  | rpc_close => attached (do_call window_close) w
  | window_geometry => attached (emit windowGeometry_change) w
  | window_move => attached (emit move) w
  | did_navigate => attached on_did_navigate w
  | config_changed cfg_ => Ok (on_config_change cfg_ w)
  | plugins_changed err cfg_ => attached (on_plugins_change err cfg_) w
  | window_clean =>
      match clean w with
      | clean_with_rpc => Ok (clean_rpc w)
      | clean_without_rpc => Ok (clean_no_rpc w)
      | clean_undefined => Threw TypeError
      end
  | session_emit_data r data => Ok (session_emits_data r data w)
  | session_emit_exit r => Ok (session_emits_exit r w)
  end.

(** An exception leaves the state as it was: every throw above happens
    before the handler has changed anything. *)
Definition exec (w : window) (e : event) : window :=
  match step w e with
  | Ok w' => w'
  | Threw _ => w
  end.

Definition run (w : window) (events : list event) : window :=
  fold_left exec events w.

(** The messages sent to the UI so far. *)
Definition emitted (w : window) : list rpc_out :=
  omap sent (log w).

End Controller.

(** ** Counting over a run *)

Definition is_new (e : event) : bool :=
  match e with rpc_new _ => true | _ => false end.

Definition is_navigation (e : event) : bool :=
  match e with did_navigate => true | _ => false end.

Definition is_clean (e : event) : bool :=
  match e with window_clean => true | _ => false end.

Definition count (p : event -> bool) (events : list event) : nat :=
  length (List.filter p events).

(** The identifiers announced by ['session add'], in order. *)
Definition added_uids (out : list rpc_out) : list string :=
  omap (fun m => match m with session_add p => Some (a_uid p) | _ => None end) out.

(** The window once its channel is attached: by the constructor, or on
    win32 by the delayed call of [attachRPC]. *)
Definition opened (E : Env) (cfg0 : config) (wd : option string) : window :=
  if win32 E then attachRPC E wd (Window E cfg0) else Window E cfg0.

(** The warmer's listeners are gone from a session object. *)
Definition forwards_only (s : session) : bool :=
  forallb (fun l => match l with forwardData _ => true | handleData _ => false end) (on_data s)
  && forallb (fun l => match l with forwardExit _ => true | handleExit => false end) (on_exit s).

(** The warmed session: the first object on the heap, constructed by
    [createSession({})]. *)
Definition warmed_ctor (E : Env) : session_ctor := mkCtor no_options (uuid_v4 E 0).

Definition warmed_session (E : Env) (dl : list data_listener) (el : list exit_listener) : session :=
  mkSession (warmed_ctor E) (Session_shell E (warmed_ctor E)) (Session_pid E 0) dl el.

Definition attach_log (E : Env) : list call :=
  [config_subscribe; createRPC; new_Session 0 (warmed_ctor E); plugins_onWindow; plugins_subscribe].

(** The window while the warmer is buffering: nothing but ['data'] and
    ['exit'] of the warmed session has happened, and [buffer] is what
    [initialEvents] holds. *)
Definition warming (E : Env) (cfg0 : config) (wd : option string) (buffer : list rpc_out) : window :=
  mkWindow cfg0 clean_with_rpc true (if win32 E then wd else None)
    [(uuid_v4 E 0, 0)] [warmed_session E [handleData (uuid_v4 E 0)] [handleExit]]
    buffer (Some (uuid_v4 E 0, 0)) 0%N (attach_log E) 0 0.

(** The ['session add'] that answers a ["new"] request served by session
    [r]. *)
Definition add_for (E : Env) (w : window) (options : option new_options) (r : nat) : rpc_out :=
  let so := sessionOpts E w options in
  session_add (mkAdd (rows so) (cols so) (uuid_v4 E r) (splitDirection so)
                 (Session_shell E (mkCtor no_options (uuid_v4 E r))) (Session_pid E r)).

(** What the listeners of a session do with one ['data'] or ['exit']. *)
Definition buffered_by (data : string) (l : data_listener) : option rpc_out :=
  match l with
  | handleData uid => Some (session_data (uid +:+ data))
  | forwardData _ => None
  end.

Definition forwarded_by (data : string) (l : data_listener) : option call :=
  match l with
  | handleData _ => None
  | forwardData uid => Some (rpc_emit (session_data (uid +:+ data)))
  end.

Definition exit_buffered_by (l : exit_listener) : option rpc_out :=
  match l with
  | handleExit => Some (session_exit None)
  | forwardExit _ => None
  end.

Definition exit_forwarded_by (l : exit_listener) : option call :=
  match l with
  | handleExit => None
  | forwardExit uid => Some (rpc_emit (session_exit (Some uid)))
  end.

Definition exit_deleted_by (l : exit_listener) : option string :=
  match l with
  | handleExit => None
  | forwardExit uid => Some uid
  end.

Definition delete_all (keys : list string) (m : list (string * nat)) : list (string * nat) :=
  fold_left (fun m' k => map_delete k m') keys m.

Definition teardown_calls (entry : string * nat) : list call :=
  [session_removeAllListeners entry.2; session_destroy entry.2].

Definition detach_all (entries : list (string * nat)) (h : list session) : list session :=
  fold_left (fun h' entry => alter removeAllListeners entry.2 h') entries h.

(** The window right after the first ["new"] was served from the warmed
    session, [buffer] being what the warmer had recorded. *)
Definition serving (E : Env) (cfg0 : config) (wd : option string) (buffer : list rpc_out)
    (options : option new_options) : window :=
  mkWindow cfg0 clean_with_rpc true (if win32 E then wd else None)
    [(uuid_v4 E 0, 0)]
    [warmed_session E [forwardData (uuid_v4 E 0)] [forwardExit (uuid_v4 E 0)]]
    buffer None 0%N
    (attach_log E ++ rpc_emit (add_for E (warming E cfg0 wd buffer) options 0)
                     :: map rpc_emit buffer)
    1 0.

(** Listeners of the session behind a ["new"] once it is served: the
    warmer's are removed first when the session was the warmed one. *)
Definition serve (uid0 uid : string) (flush : bool) (s : session) : session :=
  let dl := if flush then removeListener data_listener_eqb (handleData uid0) (on_data s)
            else on_data s in
  let el := if flush then removeListener exit_listener_eqb handleExit (on_exit s)
            else on_exit s in
  mkSession (s_ctor s) (s_shell s) (s_pid s) (dl ++ [forwardData uid]) (el ++ [forwardExit uid]).

(** ** Invariants *)

(** The registry is a [Map] (one entry per key) and every reference the
    controller holds points to a session object. *)
Record wf (w : window) : Prop := mk_wf {
  wf_attached : rpc_attached w = true;
  wf_clean : clean w = clean_with_rpc;
  wf_keys : NoDup (sessions w).*1;
  wf_refs : forall k r, (k, r) ∈ sessions w -> r < length (heap w);
  wf_initial : forall uid r, initialSession w = Some (uid, r) -> r < length (heap w)
}.

(** What an event other than ["new"] leaves alone. *)
Record frame (w w' : window) : Prop := mk_frame {
  fr_initial : initialSession w' = initialSession w;
  fr_flushes : flushEvents_calls w' = flushEvents_calls w;
  fr_wd : workingDirectory w' = workingDirectory w;
  fr_length : length (heap w') = length (heap w);
  fr_heap : forall r, heap w' !! r = heap w !! r
                      \/ heap w' !! r = removeAllListeners <$> heap w !! r;
  fr_log : exists calls, log w' = log w ++ calls /\ added_uids (omap sent calls) = [];
  fr_buffer : exists more, initialEvents w' = initialEvents w ++ more /\ added_uids more = []
}.

(** The state of the sessions after [n] requests ["new"]: which session
    objects exist, how they were constructed, which identifiers were
    announced, and whether the warmer is still listening. *)
Record served (E : Env) (n : nat) (w : window) : Prop := mk_served {
  sv_heap : length (heap w) = Nat.max 1 n;
  sv_made : forall r s, heap w !! r = Some s ->
      s_ctor s = mkCtor no_options (uuid_v4 E r)
      /\ s_shell s = Session_shell E (s_ctor s)
      /\ s_pid s = Session_pid E r;
  sv_uids : added_uids (emitted w) = map (uuid_v4 E) (seq 0 n);
  sv_buffer : added_uids (initialEvents w) = [];
  sv_flushes : flushEvents_calls w = Nat.min 1 n;
  sv_initial : initialSession w = match n with
                                  | 0 => Some (uuid_v4 E 0, 0)
                                  | S _ => None
                                  end;
  sv_listeners : forall r s, heap w !! r = Some s ->
      match n with
      | 0 => (on_data s = [handleData (uuid_v4 E 0)] \/ on_data s = [])
             /\ (on_exit s = [handleExit] \/ on_exit s = [])
      | S _ => forwards_only s = true
      end
}.

(** The navigation counter and the count of teardowns do not move. *)
Definition same_counters (w w' : window) : Prop :=
  i w' = i w /\ deleteSessions_calls w' = deleteSessions_calls w.

(** ** The claims' vocabulary *)

(** The five actions of a clean-up on an attached window, in order, around
    the teardown of the registered sessions. *)
Definition full_cleanup (w w' : window) : Prop :=
  log w' = log w ++ [winRecord; rpc_destroy]
                 ++ flat_map teardown_calls (sessions w)
                 ++ [cfgUnsubscribe; pluginsUnsubscribe]
  /\ deleteSessions_calls w' = S (deleteSessions_calls w)
  /\ sessions w' = [].

(** A [Session] constructed with the merged configuration [so]. *)
Definition constructed_with (so : session_opts) (c : session_ctor) : Prop :=
  o_rows (c_options c) = Some (rows so)
  /\ o_cols (c_options c) = Some (cols so)
  /\ o_cwd (c_options c) = Some (cwd so)
  /\ o_splitDirection (c_options c) = splitDirection so
  /\ o_shell (c_options c) = shell so
  /\ o_shellArgs (c_options c) = shellArgs so.

(** The working directory as the specification words it: the explicit
    override if present, else the absolute argv-derived path, else the
    configuration directory. Present means truthy. *)
Definition spec_cwd (override argv : option string) (is_absolute : string -> bool)
    (config_dir : string) : string :=
  if truthy override then default EmptyString override
  else if truthy argv && is_absolute (default EmptyString argv) then default EmptyString argv
  else config_dir.

(** Two environments to run the controller in. *)
Definition posix_env : Env :=
  mkEnv false (Some "/home/user/project") "/home/user/.config/hyper"
    (fun path => match path with String "/" _ => true | _ => false end)
    (fun n => "S" +:+ NilZero.string_of_uint (Nat.to_uint (S n)))
    (fun _ => "/bin/bash")
    (fun n => (1000 + Z.of_nat n)%Z)
    (fun color => color).

Definition windows_env : Env :=
  mkEnv true None "C:\Users\user\.hyper"
    (fun path => match path with String _ (String ":" _) => true | _ => false end)
    (fun n => "S" +:+ NilZero.string_of_uint (Nat.to_uint (S n)))
    (fun _ => "C:\Windows\System32\cmd.exe")
    (fun n => (1000 + Z.of_nat n)%Z)
    (fun color => color).

Definition sample_cfg : config := mkConfig (Some "/bin/zsh") (Some ["--login"]) None.

(** ** Vocabulary of the further properties *)

(** A registry entry names the session constructed with its key, and that
    session carries exactly the listeners of its stage: the warmer's while
    the warmed session is held, the forwarding pair afterwards. *)
Definition listening (E : Env) (w : window) : Prop :=
  forall k r, (k, r) ∈ sessions w ->
    k = uuid_v4 E r
    /\ exists s, heap w !! r = Some s
         /\ c_uid (s_ctor s) = k
         /\ match initialSession w with
            | Some _ => on_data s = [handleData k] /\ on_exit s = [handleExit]
            | None => on_data s = [forwardData k] /\ on_exit s = [forwardExit k]
            end.

(** The sessions [destroy] was called on, in call order. *)
Definition destroyed (l : list call) : list nat :=
  omap (fun c => match c with session_destroy r => Some r | _ => None end) l.

(** Whether an event runs [deleteSessions] on an attached window. *)
Definition tears_down (w : window) (e : event) : bool :=
  match e with
  | window_clean => true
  | did_navigate => negb (i w =? 0)%N
  | _ => false
  end.

(** The keys the forwarding exit listeners of a session delete. *)
Definition unregistered_by (w : window) (e : event) : list string :=
  match e with
  | session_emit_exit r => omap exit_deleted_by (exit_listeners r w)
  | _ => []
  end.

(** The test of the configuration callback: shell or shellArgs differ. *)
Definition shell_differs (c c' : config) : bool :=
  negb (bool_decide (cfg_shell c' = cfg_shell c))
  || negb (bool_decide (cfg_shellArgs c' = cfg_shellArgs c)).

(** How often the shell configuration changes along [cs], starting from
    [c]. *)
Fixpoint shell_changes (c : config) (cs : list config) : nat :=
  match cs with
  | [] => 0
  | c' :: cs' => (if shell_differs c c' then 1 else 0) + shell_changes c' cs'
  end.

Definition notifications (l : list call) : nat :=
  length (List.filter (fun c => match c with notify_shell_changed => true | _ => false end) l).

(** ** The ['init'] handler

    The handler reads and writes two variables the other handlers do not
    touch: [fn], the callback given to the constructor, and
    [app.windowCallback]. A callback is a function value; running one is
    recorded, not executed. *)

Inductive callback :=
| request_termgroup          (* win => win.rpc.emit('termgroup add req') *)
| given (id : nat).          (* a function passed in by the application *)

Inductive startup_call :=
| show_window
| update_background
| run_callback (c : callback)
| fetch_notifications
| start_updater
| log_ignoring_updates.

Record startup := mkStartup {
  fn : option callback;
  app_windowCallback : option callback;
  startup_log : list startup_call
}.

(** [rpc.on('init', () => ...)]; [isDev] is the constant of
    electron-is-dev. *)
Definition on_init (isDev : bool) (s : startup) : startup :=
  let fn' := match fn s with Some f => f | None => request_termgroup end in
  let chosen := match app_windowCallback s with Some c => c | None => fn' end in
  mkStartup (Some fn') None
    (startup_log s ++ [show_window; update_background; run_callback chosen;
                        fetch_notifications;
                        if isDev then log_ignoring_updates else start_updater]).

Definition callbacks_run (l : list startup_call) : list callback :=
  omap (fun c => match c with run_callback f => Some f | _ => None end) l.

Definition updater_starts (l : list startup_call) : nat :=
  length (List.filter (fun c => match c with start_updater => true | _ => false end) l).

(** ** The navigation interceptors

    [parseUrl(url).protocol] and [fileUriToPath] belong to libraries; a url
    that is not a string is [None]. *)

Record url_env := mkUrlEnv {
  protocol_of : string -> option string;
  fileUriToPath : string -> string
}.

(** What an interceptor does: the payload of ['session data send'] has an
    [escaped] property only for a file path; an absent property reads as
    false in the ["data"] handler. *)
Inductive navigation_call :=
| preventDefault
| session_data_send (data : string) (escaped : bool)
| openExternal (url : string).

Definition is_protocol (p : option string) (name : string) : bool :=
  match p with
  | Some q => String.eqb q name
  | None => false
  end.

(** [window.webContents.on('will-navigate', (event, url) => ...)]. *)
Definition will_navigate (U : url_env) (url : option string) : list navigation_call :=
  match url with
  | None => []
  | Some u =>
      let protocol := protocol_of U u in
      if is_protocol protocol "file:"
      then [preventDefault; session_data_send (fileUriToPath U u) true]
      else if is_protocol protocol "http:" || is_protocol protocol "https:"
      then [preventDefault; session_data_send u false]
      else []
  end.

(** [window.webContents.on('new-window', (event, url) => ...)]. *)
Definition new_window (U : url_env) (url : option string) : list navigation_call :=
  match url with
  | None => []
  | Some u =>
      let protocol := protocol_of U u in
      if is_protocol protocol "http:" || is_protocol protocol "https:"
      then [preventDefault; openExternal u]
      else []
  end.

(** The ["data"] request the UI makes of a ['session data send'] for the
    session [uid]. *)
Definition data_request (uid : string) (c : navigation_call) : option event :=
  match c with
  | session_data_send data escaped => Some (rpc_data (Some (mkData uid data escaped)))
  | _ => None
  end.

(** A url environment that reads the protocol up to the first colon. *)
Fixpoint scheme (u : string) : option string :=
  match u with
  | EmptyString => None
  | String c rest =>
      if Ascii.eqb c ":" then Some (String c EmptyString)
      else option_map (String c) (scheme rest)
  end.

Definition sample_urls : url_env :=
  mkUrlEnv scheme (fun u => substring 7 (String.length u - 7) u).

(** The window of the win32 constructor before [attachRPC] has run, with
    configuration [c] and log [l]. *)
Definition unattached (c : config) (l : list call) : window :=
  mkWindow c clean_without_rpc false None [] [] [] None 0%N l 0 0.

(** ** Tactics *)

(** Projections of updated windows reduce once the window is a record. *)
Ltac window_simpl :=
  cbn [cfg clean rpc_attached workingDirectory sessions heap initialEvents initialSession
       i log flushEvents_calls deleteSessions_calls
       set_cfg set_clean set_sessions set_heap set_initialEvents set_initialSession set_i
       do_calls do_call count_flushEvents count_deleteSessions set_attached emit
       update_session session_on_data session_on_exit] in *.

Ltac open_window w := destruct w; window_simpl.

(** * Escaped writes *)

Lemma append_cons (x : ascii) (a b : string) : String x a +:+ b = String x (a +:+ b).
Proof. reflexivity. Qed.

Lemma append_assoc (a b c : string) : (a +:+ b) +:+ c = a +:+ (b +:+ c).
Proof.
  induction a as [|x a IH]; [reflexivity|].
  rewrite !append_cons, IH. reflexivity.
Qed.

Lemma not_control_not_nul c : is_control c = false -> Ascii.eqb c nul = false.
Proof.
  intros H. destruct (Ascii.eqb c nul) eqn:Hn; [|reflexivity].
  apply Ascii.eqb_eq in Hn. subst c. discriminate H.
Qed.

Lemma sh_word_close rest : sh_word sh_quoted (String squote rest) = sh_word sh_plain rest.
Proof. reflexivity. Qed.

Lemma sh_word_open rest : sh_word sh_plain (String squote rest) = sh_word sh_quoted rest.
Proof. reflexivity. Qed.

Lemma sh_word_escaped_quote rest :
  sh_word sh_plain (String backslash (String squote rest))
  = option_map (String squote) (sh_word sh_plain rest).
Proof. reflexivity. Qed.

Lemma sh_word_literal c rest :
  is_control c = false -> Ascii.eqb c squote = false ->
  sh_word sh_quoted (String c rest) = option_map (String c) (sh_word sh_quoted rest).
Proof.
  intros Hc Hq. cbn [sh_word]. rewrite (not_control_not_nul c Hc), Hc, Hq. reflexivity.
Qed.

(** Between the quotes the replaced data reads as the data, and what
    follows the closing quote is read on its own. *)
Lemma sh_word_quoted_then (data rest : string) :
  printable data = true ->
  sh_word sh_quoted (replace_quotes data +:+ String squote rest)
  = option_map (String.append data) (sh_word sh_plain rest).
Proof.
  unfold printable. induction data as [|c data IH]; intros Hp.
  - change (replace_quotes EmptyString +:+ String squote rest) with (String squote rest).
    rewrite sh_word_close. destruct (sh_word sh_plain rest); reflexivity.
  - cbn [all_chars] in Hp. apply andb_prop in Hp as [Hc Hp].
    apply negb_true_iff in Hc. specialize (IH Hp).
    cbn [replace_quotes]. destruct (Ascii.eqb c squote) eqn:Hq.
    + apply Ascii.eqb_eq in Hq. subst c.
      rewrite !append_cons, sh_word_close, sh_word_escaped_quote, sh_word_open, IH.
      destruct (sh_word sh_plain rest); reflexivity.
    + rewrite append_cons, (sh_word_literal c _ Hc Hq), IH.
      destruct (sh_word sh_plain rest); reflexivity.
Qed.





(** * Basic facts *)

Lemma opened_eq E cfg0 wd : opened E cfg0 wd = warming E cfg0 wd [].
Proof. unfold opened, Window, warming. destruct (win32 E); reflexivity. Qed.

Lemma run_app E w evs1 evs2 : run E w (evs1 ++ evs2) = run E (run E w evs1) evs2.
Proof. apply fold_left_app. Qed.

Lemma run_cons E w e evs : run E w (e :: evs) = run E (exec E w e) evs.
Proof. reflexivity. Qed.

Lemma run_snoc E w evs e : run E w (evs ++ [e]) = exec E (run E w evs) e.
Proof. rewrite run_app. reflexivity. Qed.

Lemma fold_emit (l : list rpc_out) (w : window) :
  fold_left (fun w' args => emit args w') l w = do_calls (map rpc_emit l) w.
Proof.
  revert w. induction l as [|m l IH]; intros w; cbn [fold_left map].
  - destruct w. cbn. rewrite app_nil_r. reflexivity.
  - rewrite IH. destruct w. cbn. rewrite <- app_assoc. reflexivity.
Qed.

Lemma emitted_app (l1 l2 : list call) (w : window) :
  log w = l1 ++ l2 ->
  emitted w = omap sent l1 ++ omap sent l2.
Proof. intros H. unfold emitted. rewrite H. apply omap_app. Qed.

Lemma omap_rpc_emit (l : list rpc_out) : omap sent (map rpc_emit l) = l.
Proof. induction l as [|m l IH]; [reflexivity|]. cbn. f_equal. exact IH. Qed.

Lemma fold_data_listeners data (ls : list data_listener) (w : window) :
  fold_left (run_data_listener data) ls w
  = do_calls (omap (forwarded_by data) ls)
      (set_initialEvents (initialEvents w ++ omap (buffered_by data) ls) w).
Proof.
  revert w. induction ls as [|l ls IH]; intros w.
  - destruct w. cbn. rewrite !app_nil_r. reflexivity.
  - cbn [fold_left]. rewrite IH. destruct w, l; cbn; rewrite <- ?app_assoc; reflexivity.
Qed.

Lemma fold_exit_listeners (ls : list exit_listener) (w : window) :
  fold_left run_exit_listener ls w
  = set_sessions (delete_all (omap exit_deleted_by ls) (sessions w))
      (do_calls (omap exit_forwarded_by ls)
         (set_initialEvents (initialEvents w ++ omap exit_buffered_by ls) w)).
Proof.
  revert w. induction ls as [|l ls IH]; intros w.
  - destruct w. cbn. rewrite !app_nil_r. reflexivity.
  - cbn [fold_left]. rewrite IH. destruct w, l; cbn; rewrite <- ?app_assoc; reflexivity.
Qed.

(** * The registry *)

Lemma map_get_delete_eq k m : map_get k (map_delete k m) = None.
Proof.
  induction m as [|[k' v] m IH]; [reflexivity|]. cbn.
  destruct (String.eqb k' k) eqn:Hk; [exact IH|]. cbn. rewrite Hk. exact IH.
Qed.

Lemma map_get_delete_ne k k' m : k <> k' -> map_get k' (map_delete k m) = map_get k' m.
Proof.
  intros Hne. induction m as [|[k'' v] m IH]; [reflexivity|]. cbn.
  destruct (String.eqb k'' k) eqn:Hk.
  - apply String.eqb_eq in Hk. subst k''.
    destruct (String.eqb k k') eqn:Hk'; [apply String.eqb_eq in Hk'; contradiction | exact IH].
  - cbn. rewrite IH. reflexivity.
Qed.

Lemma map_get_set_eq k v m : map_get k (map_set k v m) = Some v.
Proof.
  induction m as [|[k' v'] m IH]; cbn.
  - rewrite String.eqb_refl. reflexivity.
  - destruct (String.eqb k' k) eqn:Hk; cbn.
    + rewrite String.eqb_refl. reflexivity.
    + rewrite Hk. exact IH.
Qed.

Lemma map_get_set_ne k k' v m : k <> k' -> map_get k' (map_set k v m) = map_get k' m.
Proof.
  intros Hne. induction m as [|[k'' v'] m IH]; cbn.
  - destruct (String.eqb k k') eqn:Hk; [apply String.eqb_eq in Hk; contradiction | reflexivity].
  - destruct (String.eqb k'' k) eqn:Hk; cbn.
    + apply String.eqb_eq in Hk. subst k''.
      destruct (String.eqb k k') eqn:Hk'; [apply String.eqb_eq in Hk'; contradiction | reflexivity].
    + rewrite IH. reflexivity.
Qed.

Lemma elem_of_keys_delete k k' m : k' ∈ (map_delete k m).*1 -> k' ∈ m.*1 /\ k' <> k.
Proof.
  induction m as [|[k'' v] m IH]; cbn; [intros H; inversion H|].
  destruct (String.eqb k'' k) eqn:Hk.
  - intros H. destruct (IH H) as [H1 H2]. split; [right; exact H1 | exact H2].
  - cbn. intros H. apply elem_of_cons in H as [->|H].
    + split; [left|]. intros ->. rewrite String.eqb_refl in Hk. discriminate.
    + destruct (IH H) as [H1 H2]. split; [right; exact H1 | exact H2].
Qed.

Lemma elem_of_keys_set k v k' m : k' ∈ (map_set k v m).*1 -> k' = k \/ k' ∈ m.*1.
Proof.
  induction m as [|[k'' v'] m IH]; cbn.
  - intros H. apply list_elem_of_singleton in H. left. exact H.
  - destruct (String.eqb k'' k) eqn:Hk; cbn; intros H;
      apply elem_of_cons in H as [->|H].
    + left. reflexivity.
    + right. right. exact H.
    + right. left.
    + destruct (IH H) as [->|H']; [left; reflexivity | right; right; exact H'].
Qed.

Lemma NoDup_keys_delete k m : NoDup m.*1 -> NoDup (map_delete k m).*1.
Proof.
  induction m as [|[k' v] m IH]; cbn; [intros _; constructor|].
  intros H. apply NoDup_cons in H as [Hnin Hnd].
  destruct (String.eqb k' k); [exact (IH Hnd)|]. cbn.
  apply NoDup_cons. split; [|exact (IH Hnd)].
  intros Hin. apply elem_of_keys_delete in Hin as [Hin _]. contradiction.
Qed.

Lemma NoDup_keys_set k v m : NoDup m.*1 -> NoDup (map_set k v m).*1.
Proof.
  induction m as [|[k' v'] m IH]; cbn.
  - intros _. apply NoDup_singleton.
  - intros H. apply NoDup_cons in H as [Hnin Hnd].
    destruct (String.eqb k' k) eqn:Hk; cbn.
    + apply String.eqb_eq in Hk. subst k'. apply NoDup_cons. split; assumption.
    + apply NoDup_cons. split; [|exact (IH Hnd)].
      intros Hin. apply elem_of_keys_set in Hin as [->|Hin]; [|contradiction].
      rewrite String.eqb_refl in Hk. discriminate.
Qed.

Lemma map_get_Some_elem k r m : map_get k m = Some r -> (k, r) ∈ m.
Proof.
  induction m as [|[k' v] m IH]; cbn; [discriminate|].
  destruct (String.eqb k' k) eqn:Hk.
  - apply String.eqb_eq in Hk. subst k'. intros [= ->]. left.
  - intros H. right. exact (IH H).
Qed.

Lemma elem_of_keys_get k m : k ∈ m.*1 -> is_Some (map_get k m).
Proof.
  induction m as [|[k' v] m IH]; cbn; [intros H; inversion H|].
  intros H. destruct (String.eqb k' k) eqn:Hk; [eexists; reflexivity|].
  apply elem_of_cons in H as [->|H]; [|exact (IH H)].
  rewrite String.eqb_refl in Hk. discriminate.
Qed.

Lemma map_get_None_keys k m : map_get k m = None -> k ∉ m.*1.
Proof.
  intros H Hin. apply elem_of_keys_get in Hin as [r Hr]. congruence.
Qed.

Lemma delete_all_nil keys : delete_all keys [] = [].
Proof. induction keys as [|k keys IH]; [reflexivity | exact IH]. Qed.

Lemma delete_all_covering keys : forall m,
  (forall k, k ∈ m.*1 -> k ∈ keys) -> delete_all keys m = [].
Proof.
  induction keys as [|k keys IH]; intros m H.
  - destruct m as [|[k v] m]; [reflexivity|].
    exfalso. specialize (H k). cbn in H. eapply not_elem_of_nil. apply H. left.
  - cbn. apply IH. intros k' Hk'.
    apply elem_of_keys_delete in Hk' as [Hin Hne].
    specialize (H k' Hin). apply elem_of_cons in H as [->|H]; [contradiction | exact H].
Qed.

Lemma delete_all_keys m : delete_all m.*1 m = [].
Proof. apply delete_all_covering. auto. Qed.

(** * Teardown *)

Lemma fold_deleteSessions_entry (l : list (string * nat)) : forall w,
  NoDup l.*1 ->
  (forall k, k ∈ l.*1 -> is_Some (map_get k (sessions w))) ->
  fold_left deleteSessions_entry l w
  = set_sessions (delete_all l.*1 (sessions w))
      (do_calls (flat_map teardown_calls l) (set_heap (detach_all l (heap w)) w)).
Proof.
  induction l as [|[k r] l IH]; intros w Hnd Hin.
  - destruct w. cbn. rewrite app_nil_r. reflexivity.
  - cbn in Hnd. apply NoDup_cons in Hnd as [Hnin Hnd].
    cbn [fold_left]. unfold deleteSessions_entry at 2.
    destruct (Hin k) as [r' Hr']; [left|]. rewrite Hr'.
    rewrite IH; [| exact Hnd |].
    + destruct w. cbn. rewrite <- !app_assoc. reflexivity.
    + intros k' Hk'. destruct w. cbn. rewrite map_get_delete_ne.
      * apply Hin. right. exact Hk'.
      * intros ->. contradiction.
Qed.

Lemma deleteSessions_eq (w : window) :
  NoDup (sessions w).*1 ->
  deleteSessions w
  = count_deleteSessions
      (set_sessions []
         (do_calls (flat_map teardown_calls (sessions w))
            (set_heap (detach_all (sessions w) (heap w)) w))).
Proof.
  intros Hnd. unfold deleteSessions. open_window w.
  rewrite fold_deleteSessions_entry; [| exact Hnd | intros k Hk; apply elem_of_keys_get; exact Hk].
  window_simpl. rewrite delete_all_keys. reflexivity.
Qed.

(** * The warmer *)

Lemma warming_data E cfg0 wd buffer data :
  exec E (warming E cfg0 wd buffer) (session_emit_data 0 data)
  = warming E cfg0 wd (buffer ++ [session_data (uuid_v4 E 0 +:+ data)]).
Proof. reflexivity. Qed.

Lemma warming_exit E cfg0 wd buffer :
  exec E (warming E cfg0 wd buffer) (session_emit_exit 0)
  = warming E cfg0 wd (buffer ++ [session_exit None]).
Proof. reflexivity. Qed.

Lemma warming_chunks E cfg0 wd chunks : forall buffer,
  run E (warming E cfg0 wd buffer) (map (session_emit_data 0) chunks)
  = warming E cfg0 wd (buffer ++ map (fun d => session_data (uuid_v4 E 0 +:+ d)) chunks).
Proof.
  induction chunks as [|d chunks IH]; intros buffer; cbn [map].
  - rewrite app_nil_r. reflexivity.
  - rewrite run_cons, warming_data, IH, <- app_assoc. reflexivity.
Qed.

Lemma warming_new E cfg0 wd buffer options :
  exec E (warming E cfg0 wd buffer) (rpc_new options) = serving E cfg0 wd buffer options.
Proof.
  unfold serving.
  unfold exec, step, attached, warming, on_new. cbn.
  rewrite String.eqb_refl. unfold flushEvents. cbn. rewrite fold_emit. cbn.
  rewrite String.eqb_refl. cbn. reflexivity.
Qed.

(** * The ["new"] handler, case by case *)

Lemma alter_serve_flush uid r (h : list session) :
  alter (fun s => set_on_exit (on_exit s ++ [forwardExit uid]) s) r
    (alter (fun s => set_on_data (on_data s ++ [forwardData uid]) s) r
       (alter (fun s => set_on_exit (removeListener exit_listener_eqb handleExit (on_exit s)) s) r
          (alter (fun s => set_on_data
                             (removeListener data_listener_eqb (handleData uid) (on_data s)) s) r h)))
  = alter (serve uid uid true) r h.
Proof.
  rewrite !list_alter_alter_eq. apply list_alter_ext; [|reflexivity].
  intros s _. destruct s. reflexivity.
Qed.

Lemma alter_serve_fresh uid r (h : list session) :
  alter (fun s => set_on_exit (on_exit s ++ [forwardExit uid]) s) r
    (alter (fun s => set_on_data (on_data s ++ [forwardData uid]) s) r h)
  = alter (serve uid uid false) r h.
Proof.
  rewrite !list_alter_alter_eq. apply list_alter_ext; [|reflexivity].
  intros s _. destruct s. reflexivity.
Qed.

Lemma map_set_twice k v m : map_set k v (map_set k v m) = map_set k v m.
Proof.
  induction m as [|[k' v'] m IH]; cbn.
  - rewrite String.eqb_refl. reflexivity.
  - destruct (String.eqb k' k) eqn:Hk; cbn.
    + rewrite String.eqb_refl. reflexivity.
    + rewrite Hk, IH. reflexivity.
Qed.

Lemma on_new_warmed E options w uid r :
  initialSession w = Some (uid, r) ->
  on_new E options w
  = mkWindow (cfg w) (clean w) (rpc_attached w) (workingDirectory w)
      (map_set uid r (sessions w))
      (alter (serve uid uid true) r (heap w))
      (initialEvents w) None (i w)
      (log w ++ rpc_emit (session_add
                            (mkAdd (rows (sessionOpts E w options)) (cols (sessionOpts E w options))
                               uid (splitDirection (sessionOpts E w options))
                               (session_shell_of r w) (session_pid_of r w)))
             :: map rpc_emit (initialEvents w))
      (S (flushEvents_calls w)) (deleteSessions_calls w).
Proof.
  intros H. open_window w. subst.
  unfold on_new. window_simpl. cbv iota beta. unfold flushEvents. window_simpl.
  rewrite fold_emit. window_simpl.
  rewrite alter_serve_flush, <- app_assoc. reflexivity.
Qed.

Lemma on_new_fresh E options w :
  initialSession w = None ->
  let r := length (heap w) in
  let uid := uuid_v4 E r in
  let c := mkCtor no_options uid in
  on_new E options w
  = mkWindow (cfg w) (clean w) (rpc_attached w) (workingDirectory w)
      (map_set uid r (sessions w))
      (heap w ++ [mkSession c (Session_shell E c) (Session_pid E r)
                    [forwardData uid] [forwardExit uid]])
      (initialEvents w) None (i w)
      (log w ++ [new_Session r c; rpc_emit (add_for E w options r)])
      (flushEvents_calls w) (deleteSessions_calls w).
Proof.
  intros H. open_window w. subst. cbv zeta.
  unfold on_new, add_for, createSession. window_simpl. cbv iota beta. window_simpl.
  unfold session_shell_of, session_pid_of. window_simpl.
  rewrite alter_serve_fresh, map_set_twice, !list_lookup_middle by reflexivity.
  rewrite alter_app_r_alt by lia. rewrite Nat.sub_diag. cbn.
  rewrite <- app_assoc. reflexivity.
Qed.


(** * Well-formed windows *)

Lemma elem_of_map_set k v p m : p ∈ map_set k v m -> p = (k, v) \/ p ∈ m.
Proof.
  induction m as [|[k' v'] m IH]; cbn.
  - intros H. apply list_elem_of_singleton in H. left. exact H.
  - destruct (String.eqb k' k); intros H; apply elem_of_cons in H as [->|H].
    + left. reflexivity.
    + right. right. exact H.
    + right. left.
    + destruct (IH H) as [->|H']; [left; reflexivity | right; right; exact H'].
Qed.

Lemma elem_of_map_delete k p m : p ∈ map_delete k m -> p ∈ m.
Proof.
  induction m as [|[k' v'] m IH]; cbn; [auto|].
  destruct (String.eqb k' k); intros H.
  - right. exact (IH H).
  - apply elem_of_cons in H as [->|H]; [left | right; exact (IH H)].
Qed.

Lemma elem_of_delete_all keys : forall p m, p ∈ delete_all keys m -> p ∈ m.
Proof.
  induction keys as [|k keys IH]; intros p m H; [exact H|].
  cbn in H. apply IH in H. eapply elem_of_map_delete. exact H.
Qed.

Lemma NoDup_keys_delete_all keys : forall m, NoDup m.*1 -> NoDup (delete_all keys m).*1.
Proof.
  induction keys as [|k keys IH]; intros m H; [exact H|].
  cbn. apply IH, NoDup_keys_delete, H.
Qed.

Lemma length_detach_all entries : forall h, length (detach_all entries h) = length h.
Proof.
  induction entries as [|p entries IH]; intros h; [reflexivity|].
  change (length (detach_all entries (alter removeAllListeners p.2 h)) = length h).
  rewrite IH. apply length_alter.
Qed.

Lemma wf_warming E cfg0 wd buffer : wf (warming E cfg0 wd buffer).
Proof.
  constructor; cbn; try reflexivity.
  - apply NoDup_singleton.
  - intros k r H. apply list_elem_of_singleton in H. injection H as _ ->. lia.
  - intros uid r [= _ <-]. lia.
Qed.

Lemma wf_do_calls cs w : wf w -> wf (do_calls cs w).
Proof. open_window w. intros [? ? ? ? ?]. constructor; assumption. Qed.

Lemma wf_do_call c w : wf w -> wf (do_call c w).
Proof. apply wf_do_calls. Qed.

Lemma wf_set_i n w : wf w -> wf (set_i n w).
Proof. open_window w. intros [? ? ? ? ?]. constructor; assumption. Qed.

Lemma wf_set_cfg c w : wf w -> wf (set_cfg c w).
Proof. open_window w. intros [? ? ? ? ?]. constructor; assumption. Qed.

Lemma wf_deleteSessions w : wf w -> wf (deleteSessions w).
Proof.
  intros [Ha Hc Hk Hr Hi]. rewrite deleteSessions_eq by exact Hk.
  open_window w. constructor; window_simpl; try assumption.
  - constructor.
  - intros k r H. inversion H.
  - intros uid r H. rewrite length_detach_all. eapply Hi, H.
Qed.

Lemma wf_on_new E options w : wf w -> wf (on_new E options w).
Proof.
  intros [Ha Hc Hk Hr Hi].
  destruct (initialSession w) as [[uid r]|] eqn:Hinit.
  - rewrite (on_new_warmed E options w uid r Hinit).
    constructor; window_simpl; try assumption.
    + apply NoDup_keys_set, Hk.
    + intros k r' H. rewrite length_alter.
      apply elem_of_map_set in H as [[= _ ->]|H]; [eapply Hi; reflexivity | eapply Hr, H].
    + discriminate.
  - rewrite (on_new_fresh E options w Hinit).
    constructor; window_simpl; try assumption.
    + apply NoDup_keys_set, Hk.
    + intros k r' H. rewrite length_app. cbn.
      apply elem_of_map_set in H as [[= _ ->]|H]; [lia | apply Hr in H; lia].
    + discriminate.
Qed.

Lemma wf_exec E w e : wf w -> wf (exec E w e).
Proof.
  intros Hw. pose proof Hw as [Ha Hc Hk Hr Hi].
  destruct e; unfold exec, step, attached, destructure; rewrite ?Ha, ?Hc.
  - apply wf_on_new, Hw.
  - destruct payload as [uid|]; [|exact Hw].
    unfold on_exit_req. destruct (map_get uid (sessions w)); [apply wf_do_call|]; exact Hw.
  - destruct payload as [p|]; [|exact Hw].
    unfold on_resize. destruct (map_get _ (sessions w)); [apply wf_do_call|]; exact Hw.
  - destruct payload as [p|]; [|exact Hw].
    unfold on_data_req. destruct (map_get _ (sessions w)); [|exact Hw].
    destruct (d_escaped p); apply wf_do_call; exact Hw.
  - apply wf_do_call, Hw.
  - apply wf_do_call, Hw.
  - apply wf_do_call, Hw.
  - apply wf_do_call, Hw.
  - apply wf_do_call, Hw.
  - apply wf_do_call, Hw.
  - unfold on_did_navigate. destruct (i w =? 0)%N.
    + apply wf_set_i, Hw.
    + apply wf_deleteSessions, wf_set_i, Hw.
  - unfold on_config_change, updateBackgroundColor.
    apply wf_set_cfg, wf_do_call. destruct (_ || _); repeat apply wf_do_call; exact Hw.
  - unfold on_plugins_change. destruct err; [exact Hw|].
    unfold updateBackgroundColor. repeat apply wf_do_call. exact Hw.
  - unfold clean_rpc. repeat apply wf_do_call. apply wf_deleteSessions.
    repeat apply wf_do_call. exact Hw.
  - unfold session_emits_data. rewrite fold_data_listeners.
    apply wf_do_calls. clear Hw. open_window w. constructor; assumption.
  - unfold session_emits_exit. rewrite fold_exit_listeners.
    clear Hw. open_window w. constructor; window_simpl; try assumption.
    + apply NoDup_keys_delete_all, Hk.
    + intros k r' H. apply elem_of_delete_all in H. eapply Hr, H.
Qed.

Lemma wf_run E evs : forall w, wf w -> wf (run E w evs).
Proof.
  induction evs as [|e evs IH]; intros w Hw; [exact Hw|].
  rewrite run_cons. apply IH, wf_exec, Hw.
Qed.

(** * What every event other than ["new"] leaves alone *)

Lemma frame_refl w : frame w w.
Proof.
  constructor; try reflexivity.
  - intros r. left. reflexivity.
  - exists []. rewrite app_nil_r. split; reflexivity.
  - exists []. rewrite app_nil_r. split; reflexivity.
Qed.

Lemma added_uids_app l1 l2 : added_uids (l1 ++ l2) = added_uids l1 ++ added_uids l2.
Proof. apply omap_app. Qed.

Lemma frame_trans w1 w2 w3 : frame w1 w2 -> frame w2 w3 -> frame w1 w3.
Proof.
  intros [Hi1 Hf1 Hw1 Hl1 Hh1 [c1 [Hc1 Ha1]] [m1 [Hm1 Hb1]]]
         [Hi2 Hf2 Hw2 Hl2 Hh2 [c2 [Hc2 Ha2]] [m2 [Hm2 Hb2]]].
  constructor; try congruence.
  - intros r. destruct (Hh2 r) as [->| ->]; destruct (Hh1 r) as [->| ->]; auto.
    right. destruct (heap w1 !! r); reflexivity.
  - exists (c1 ++ c2). split.
    + rewrite Hc2, Hc1, app_assoc. reflexivity.
    + rewrite omap_app, added_uids_app, Ha1, Ha2. reflexivity.
  - exists (m1 ++ m2). split.
    + rewrite Hm2, Hm1, app_assoc. reflexivity.
    + rewrite added_uids_app, Hb1, Hb2. reflexivity.
Qed.

Lemma frame_do_calls cs w : added_uids (omap sent cs) = [] -> frame w (do_calls cs w).
Proof.
  intros H. open_window w. constructor; window_simpl; try reflexivity.
  - intros r. left. reflexivity.
  - exists cs. split; [reflexivity | exact H].
  - exists []. rewrite app_nil_r. split; reflexivity.
Qed.

Lemma frame_do_call c w : added_uids (omap sent [c]) = [] -> frame w (do_call c w).
Proof. apply (frame_do_calls [c]). Qed.

Lemma frame_set_i n w : frame w (set_i n w).
Proof.
  open_window w. constructor; window_simpl; try reflexivity.
  - intros r. left. reflexivity.
  - exists []. rewrite app_nil_r. split; reflexivity.
  - exists []. rewrite app_nil_r. split; reflexivity.
Qed.

Lemma frame_set_cfg c w : frame w (set_cfg c w).
Proof.
  open_window w. constructor; window_simpl; try reflexivity.
  - intros r. left. reflexivity.
  - exists []. rewrite app_nil_r. split; reflexivity.
  - exists []. rewrite app_nil_r. split; reflexivity.
Qed.

Lemma detach_all_cons p entries h :
  detach_all (p :: entries) h = detach_all entries (alter removeAllListeners p.2 h).
Proof. reflexivity. Qed.

Lemma detach_all_lookup entries : forall h r,
  detach_all entries h !! r = h !! r
  \/ detach_all entries h !! r = removeAllListeners <$> h !! r.
Proof.
  induction entries as [|p entries IH]; intros h r; [left; reflexivity|].
  rewrite detach_all_cons.
  destruct (IH (alter removeAllListeners p.2 h) r) as [-> | ->];
    rewrite list_lookup_alter; case_decide; subst.
  - right. reflexivity.
  - left. reflexivity.
  - right. destruct (h !! p.2); reflexivity.
  - right. reflexivity.
Qed.

Lemma detach_all_detached entries : forall h r,
  r ∈ entries.*2 ->
  detach_all entries h !! r = removeAllListeners <$> h !! r.
Proof.
  induction entries as [|p entries IH]; intros h r H; [inversion H|].
  rewrite detach_all_cons. rewrite fmap_cons in H. apply elem_of_cons in H as [->|H].
  - destruct (detach_all_lookup entries (alter removeAllListeners p.2 h) p.2) as [-> | ->];
      rewrite list_lookup_alter_eq; [reflexivity|].
    destruct (h !! p.2); reflexivity.
  - rewrite (IH _ _ H), list_lookup_alter. case_decide; [subst r|reflexivity].
    destruct (h !! p.2); reflexivity.
Qed.

Lemma omap_sent_teardown entries : omap sent (flat_map teardown_calls entries) = [].
Proof. induction entries as [|p entries IH]; [reflexivity | exact IH]. Qed.

Lemma frame_deleteSessions w : NoDup (sessions w).*1 -> frame w (deleteSessions w).
Proof.
  intros Hk. rewrite deleteSessions_eq by exact Hk.
  open_window w. constructor; window_simpl; try reflexivity.
  - apply length_detach_all.
  - apply detach_all_lookup.
  - eexists. split; [reflexivity|]. rewrite omap_sent_teardown. reflexivity.
  - exists []. rewrite app_nil_r. split; reflexivity.
Qed.

Lemma added_uids_forwarded data ls : added_uids (omap sent (omap (forwarded_by data) ls)) = [].
Proof. induction ls as [|[u|u] ls IH]; [reflexivity | exact IH | exact IH]. Qed.

Lemma added_uids_buffered data ls : added_uids (omap (buffered_by data) ls) = [].
Proof. induction ls as [|[u|u] ls IH]; [reflexivity | exact IH | exact IH]. Qed.

Lemma added_uids_exit_forwarded ls : added_uids (omap sent (omap exit_forwarded_by ls)) = [].
Proof. induction ls as [|[|u] ls IH]; [reflexivity | exact IH | exact IH]. Qed.

Lemma added_uids_exit_buffered ls : added_uids (omap exit_buffered_by ls) = [].
Proof. induction ls as [|[|u] ls IH]; [reflexivity | exact IH | exact IH]. Qed.

Lemma sessions_do_calls cs w : sessions (do_calls cs w) = sessions w.
Proof. destruct w. reflexivity. Qed.

Lemma sessions_set_i n w : sessions (set_i n w) = sessions w.
Proof. destruct w. reflexivity. Qed.

Lemma frame_exec E w e : wf w -> is_new e = false -> frame w (exec E w e).
Proof.
  intros [Ha Hc Hk Hr Hi] Hnew.
  destruct e; try discriminate Hnew;
    unfold exec, step, attached, destructure; rewrite ?Ha, ?Hc.
  - destruct payload as [uid|]; [|apply frame_refl].
    unfold on_exit_req. destruct (map_get uid (sessions w));
      [apply frame_do_call; reflexivity | apply frame_refl].
  - destruct payload as [p|]; [|apply frame_refl].
    unfold on_resize. destruct (map_get _ (sessions w));
      [apply frame_do_call; reflexivity | apply frame_refl].
  - destruct payload as [p|]; [|apply frame_refl].
    unfold on_data_req. destruct (map_get _ (sessions w)); [|apply frame_refl].
    destruct (d_escaped p); apply frame_do_call; reflexivity.
  - apply frame_do_call; reflexivity.
  - apply frame_do_call; reflexivity.
  - apply frame_do_call; reflexivity.
  - apply frame_do_call; reflexivity.
  - apply frame_do_call; reflexivity.
  - apply frame_do_call; reflexivity.
  - unfold on_did_navigate. destruct (i w =? 0)%N; [apply frame_set_i|].
    eapply frame_trans; [apply frame_set_i|].
    apply frame_deleteSessions. rewrite sessions_set_i. exact Hk.
  - unfold on_config_change, updateBackgroundColor.
    eapply frame_trans; [|apply frame_set_cfg].
    eapply frame_trans; [|apply frame_do_call; reflexivity].
    destruct (_ || _).
    + eapply frame_trans; [|apply frame_do_call; reflexivity].
      apply frame_do_call; reflexivity.
    + apply frame_do_call; reflexivity.
  - unfold on_plugins_change. destruct err; [apply frame_refl|].
    unfold updateBackgroundColor.
    eapply frame_trans; [|apply frame_do_call; reflexivity].
    eapply frame_trans; [|apply frame_do_call; reflexivity].
    apply frame_do_call; reflexivity.
  - unfold clean_rpc.
    eapply frame_trans; [|apply frame_do_call; reflexivity].
    eapply frame_trans; [|apply frame_do_call; reflexivity].
    eapply frame_trans;
      [|apply frame_deleteSessions; unfold do_call; rewrite !sessions_do_calls; exact Hk].
    eapply frame_trans; [|apply frame_do_call; reflexivity].
    apply frame_do_call; reflexivity.
  - unfold session_emits_data. rewrite fold_data_listeners.
    eapply frame_trans; [|apply frame_do_calls, added_uids_forwarded].
    open_window w. constructor; window_simpl; try reflexivity.
    + intros r'. left. reflexivity.
    + exists []. rewrite app_nil_r. split; reflexivity.
    + eexists. split; [reflexivity | apply added_uids_buffered].
  - unfold session_emits_exit. rewrite fold_exit_listeners.
    open_window w. constructor; window_simpl; try reflexivity.
    + intros r'. left. reflexivity.
    + eexists. split; [reflexivity | apply added_uids_exit_forwarded].
    + eexists. split; [reflexivity | apply added_uids_exit_buffered].
Qed.

(** * Sessions served *)

Lemma emitted_do_calls cs w : emitted (do_calls cs w) = emitted w ++ omap sent cs.
Proof. destruct w. apply omap_app. Qed.

Lemma omap_sent_emit m l : omap sent (rpc_emit m :: l) = m :: omap sent l.
Proof. reflexivity. Qed.

Lemma added_uids_add p l : added_uids (session_add p :: l) = a_uid p :: added_uids l.
Proof. reflexivity. Qed.

Lemma served_warming E cfg0 wd buffer :
  added_uids buffer = [] -> served E 0 (warming E cfg0 wd buffer).
Proof.
  intros Hb. constructor; cbn; try reflexivity; try exact Hb.
  - intros [|r] s; [|discriminate]. intros [= <-]. cbn. auto.
  - intros [|r] s; [|discriminate]. intros [= <-]. cbn. auto.
Qed.

Lemma served_frame E n w w' : served E n w -> frame w w' -> served E n w'.
Proof.
  intros [Hh Hm Hu Hb Hf Hi Hl] [Fi Ff Fw Fl Fh [cs [Fc Fa]] [more [Fm Fb]]].
  constructor.
  - congruence.
  - intros r s Hs. destruct (Fh r) as [H|H]; rewrite H in Hs; [exact (Hm r s Hs)|].
    destruct (heap w !! r) as [s0|] eqn:H0; [|discriminate].
    injection Hs as <-. exact (Hm r s0 H0).
  - unfold emitted in *. rewrite Fc, omap_app, added_uids_app, Fa, app_nil_r. exact Hu.
  - rewrite Fm, added_uids_app, Fb, Hb. reflexivity.
  - congruence.
  - congruence.
  - intros r s Hs. destruct (Fh r) as [H|H]; rewrite H in Hs; [exact (Hl r s Hs)|].
    destruct (heap w !! r) as [s0|] eqn:H0; [|discriminate].
    injection Hs as <-. destruct n; cbn; auto.
Qed.

Lemma forwards_only_serve_warm uid s :
  (on_data s = [handleData uid] \/ on_data s = []) ->
  (on_exit s = [handleExit] \/ on_exit s = []) ->
  forwards_only (serve uid uid true s) = true.
Proof.
  intros [Hd|Hd] [He|He]; unfold forwards_only, serve; cbn; rewrite Hd, He;
    unfold removeListener; cbn; rewrite ?String.eqb_refl; reflexivity.
Qed.

Lemma served_on_new E n options w : served E n w -> served E (S n) (on_new E options w).
Proof.
  intros [Hh Hm Hu Hb Hf Hi Hl]. destruct n as [|n].
  - rewrite (on_new_warmed E options w _ _ Hi).
    constructor; window_simpl.
    + rewrite length_alter. exact Hh.
    + intros r s. rewrite list_lookup_alter. case_decide; [subst r|apply Hm].
      destruct (heap w !! 0) as [s0|] eqn:H0; [|discriminate].
      intros [= <-]. exact (Hm 0 s0 H0).
    + unfold emitted in *. window_simpl.
      rewrite omap_app, omap_sent_emit, omap_rpc_emit, added_uids_app, added_uids_add, Hu, Hb.
      reflexivity.
    + exact Hb.
    + rewrite Hf. reflexivity.
    + reflexivity.
    + intros r s Hs. assert (r = 0) as ->.
      { apply lookup_lt_Some in Hs. rewrite length_alter, Hh in Hs. cbn in Hs. lia. }
      rewrite list_lookup_alter_eq in Hs.
      destruct (heap w !! 0) as [s0|] eqn:H0; [|discriminate].
      injection Hs as <-. destruct (Hl 0 s0 H0) as [Hd He].
      apply forwards_only_serve_warm; assumption.
  - pose proof (on_new_fresh E options w Hi) as Hnew. cbv zeta in Hnew. rewrite Hnew.
    assert (length (heap w) = S n) as Hlen by (rewrite Hh; lia).
    constructor; window_simpl.
    + rewrite length_app, Hlen. cbn. lia.
    + intros r s Hs. apply lookup_app_Some in Hs as [Hs|[Hge Hs]]; [exact (Hm r s Hs)|].
      destruct (r - length (heap w)) as [|d] eqn:Hd; [|discriminate].
      injection Hs as <-. assert (r = length (heap w)) as -> by lia. auto.
    + unfold emitted in *. window_simpl.
      rewrite omap_app, added_uids_app, Hu, Hlen.
      change (omap sent [new_Session (S n) (mkCtor no_options (uuid_v4 E (S n)));
                         rpc_emit (add_for E w options (S n))])
        with [add_for E w options (S n)].
      unfold add_for. rewrite added_uids_add.
      rewrite (seq_S (S n) 0), map_app. reflexivity.
    + exact Hb.
    + rewrite Hf. reflexivity.
    + reflexivity.
    + intros r s Hs. apply lookup_app_Some in Hs as [Hs|[Hge Hs]]; [exact (Hl r s Hs)|].
      destruct (r - length (heap w)) as [|d] eqn:Hd; [|discriminate].
      injection Hs as <-. reflexivity.
Qed.

Lemma served_exec E n w e :
  wf w -> served E n w ->
  served E (n + (if is_new e then 1 else 0)) (exec E w e).
Proof.
  intros Hw Hs. destruct (is_new e) eqn:He.
  - destruct e; try discriminate He.
    unfold exec, step, attached. rewrite (wf_attached w Hw).
    rewrite Nat.add_1_r. apply served_on_new, Hs.
  - rewrite Nat.add_0_r. eapply served_frame; [exact Hs|]. apply frame_exec; assumption.
Qed.

Lemma count_cons p e evs : count p (e :: evs) = (if p e then 1 else 0) + count p evs.
Proof. unfold count. cbn. destruct (p e); reflexivity. Qed.

Lemma count_app p evs1 evs2 : count p (evs1 ++ evs2) = count p evs1 + count p evs2.
Proof. unfold count. rewrite List.filter_app, length_app. reflexivity. Qed.

Lemma served_run E evs : forall n w,
  wf w -> served E n w -> served E (n + count is_new evs) (run E w evs).
Proof.
  induction evs as [|e evs IH]; intros n w Hw Hs.
  - rewrite Nat.add_0_r. exact Hs.
  - rewrite run_cons, count_cons, Nat.add_assoc.
    apply IH; [apply wf_exec, Hw | apply served_exec; assumption].
Qed.

(** * Navigation and teardown counters *)

Lemma same_counters_refl w : same_counters w w.
Proof. split; reflexivity. Qed.

Lemma same_counters_trans w1 w2 w3 :
  same_counters w1 w2 -> same_counters w2 w3 -> same_counters w1 w3.
Proof. intros [? ?] [? ?]. split; congruence. Qed.

Lemma same_counters_do_calls cs w : same_counters w (do_calls cs w).
Proof. destruct w. split; reflexivity. Qed.

Lemma same_counters_do_call c w : same_counters w (do_call c w).
Proof. apply same_counters_do_calls. Qed.

Lemma same_counters_set_cfg c w : same_counters w (set_cfg c w).
Proof. destruct w. split; reflexivity. Qed.

Lemma same_counters_on_new E options w : same_counters w (on_new E options w).
Proof.
  destruct (initialSession w) as [[uid r]|] eqn:Hinit.
  - rewrite (on_new_warmed E options w uid r Hinit). split; reflexivity.
  - rewrite (on_new_fresh E options w Hinit). split; reflexivity.
Qed.

Lemma same_counters_exec E w e :
  is_navigation e = false -> is_clean e = false -> same_counters w (exec E w e).
Proof.
  intros Hn Hc.
  destruct e; try discriminate Hn; try discriminate Hc;
    unfold exec, step, attached, destructure;
    destruct (rpc_attached w); try apply same_counters_refl;
    try apply same_counters_do_call.
  - apply same_counters_on_new.
  - destruct payload as [uid|]; [|apply same_counters_refl].
    unfold on_exit_req. destruct (map_get uid (sessions w));
      [apply same_counters_do_call | apply same_counters_refl].
  - destruct payload as [p|]; [|apply same_counters_refl].
    unfold on_resize. destruct (map_get _ (sessions w));
      [apply same_counters_do_call | apply same_counters_refl].
  - destruct payload as [p|]; [|apply same_counters_refl].
    unfold on_data_req. destruct (map_get _ (sessions w)); [|apply same_counters_refl].
    destruct (d_escaped p); apply same_counters_do_call.
  - unfold on_config_change, updateBackgroundColor.
    eapply same_counters_trans; [|apply same_counters_set_cfg].
    eapply same_counters_trans; [|apply same_counters_do_call].
    destruct (_ || _); [|apply same_counters_do_call].
    eapply same_counters_trans; apply same_counters_do_call.
  - unfold on_config_change, updateBackgroundColor.
    eapply same_counters_trans; [|apply same_counters_set_cfg].
    eapply same_counters_trans; [|apply same_counters_do_call].
    destruct (_ || _); [|apply same_counters_do_call].
    eapply same_counters_trans; apply same_counters_do_call.
  - unfold on_plugins_change. destruct err; [apply same_counters_refl|].
    unfold updateBackgroundColor.
    eapply same_counters_trans; [|apply same_counters_do_call].
    eapply same_counters_trans; apply same_counters_do_call.
  - unfold session_emits_data. rewrite fold_data_listeners. destruct w. split; reflexivity.
  - unfold session_emits_data. rewrite fold_data_listeners. destruct w. split; reflexivity.
  - unfold session_emits_exit. rewrite fold_exit_listeners. destruct w. split; reflexivity.
  - unfold session_emits_exit. rewrite fold_exit_listeners. destruct w. split; reflexivity.
Qed.

Lemma counters_deleteSessions w :
  NoDup (sessions w).*1 ->
  i (deleteSessions w) = i w
  /\ deleteSessions_calls (deleteSessions w) = S (deleteSessions_calls w).
Proof. intros Hk. rewrite deleteSessions_eq by exact Hk. destruct w. split; reflexivity. Qed.

Lemma counters_did_navigate E w :
  wf w ->
  i (exec E w did_navigate) = incr (i w)
  /\ deleteSessions_calls (exec E w did_navigate)
     = deleteSessions_calls w + (if (i w =? 0)%N then 0 else 1).
Proof.
  intros [Ha Hc Hk Hr Hi]. unfold exec, step, attached. rewrite Ha.
  unfold on_did_navigate. destruct (i w =? 0)%N.
  - destruct w. cbn. split; [reflexivity | lia].
  - destruct (counters_deleteSessions (set_i (incr (i w)) w)) as [H1 H2].
    { rewrite sessions_set_i. exact Hk. }
    rewrite H1, H2. destruct w. cbn. split; [reflexivity | lia].
Qed.

Lemma counters_clean E w :
  wf w ->
  i (exec E w window_clean) = i w
  /\ deleteSessions_calls (exec E w window_clean) = S (deleteSessions_calls w).
Proof.
  intros [Ha Hc Hk Hr Hi]. unfold exec, step. rewrite Hc. unfold clean_rpc.
  destruct (counters_deleteSessions (do_call rpc_destroy (do_call winRecord w))) as [H1 H2].
  { unfold do_call. rewrite !sessions_do_calls. exact Hk. }
  destruct (same_counters_do_call cfgUnsubscribe
              (deleteSessions (do_call rpc_destroy (do_call winRecord w)))) as [H3 H4].
  destruct (same_counters_do_call pluginsUnsubscribe
              (do_call cfgUnsubscribe
                 (deleteSessions (do_call rpc_destroy (do_call winRecord w))))) as [H5 H6].
  rewrite H5, H6, H3, H4, H1, H2. destruct w. split; reflexivity.
Qed.

Lemma incr_zero n : incr n = 0%N <-> False.
Proof.
  unfold incr. destruct (n <? 2 ^ 53)%N eqn:H; [lia|].
  apply N.ltb_ge in H. split; [|tauto]. intros ->. 
  assert (0 < 2 ^ 53)%N by (apply N.neq_0_lt_0, N.pow_nonzero; lia). lia.
Qed.

Lemma counters_run E evs : forall w k c,
  wf w ->
  (i w = 0%N <-> k = 0) ->
  deleteSessions_calls w = Nat.pred k + c ->
  (i (run E w evs) = 0%N <-> k + count is_navigation evs = 0)
  /\ deleteSessions_calls (run E w evs)
     = Nat.pred (k + count is_navigation evs) + (c + count is_clean evs).
Proof.
  induction evs as [|e evs IH]; intros w k c Hw Hi Hd.
  - unfold count. cbn. rewrite !Nat.add_0_r. split; assumption.
  - rewrite run_cons, !count_cons.
    destruct (is_navigation e) eqn:Hnav.
    + destruct e; try discriminate Hnav. cbn [is_clean].
      destruct (counters_did_navigate E w Hw) as [H1 H2].
      destruct (IH (exec E w did_navigate) (S k) c) as [IH1 IH2].
      * apply wf_exec, Hw.
      * rewrite H1, incr_zero. split; [tauto | discriminate].
      * rewrite H2, Hd. destruct (i w =? 0)%N eqn:H0.
        -- apply N.eqb_eq in H0. apply Hi in H0. subst k. cbn. lia.
        -- apply N.eqb_neq in H0. destruct k; [tauto | cbn; lia].
      * replace (k + (1 + count is_navigation evs)) with (S k + count is_navigation evs) by lia.
        split; [exact IH1 | rewrite IH2; lia].
    + destruct (is_clean e) eqn:Hcl.
      * destruct e; try discriminate Hcl.
        destruct (counters_clean E w Hw) as [H1 H2].
        destruct (IH (exec E w window_clean) k (S c)) as [IH1 IH2].
        -- apply wf_exec, Hw.
        -- rewrite H1. exact Hi.
        -- rewrite H2, Hd. lia.
        -- cbn [Nat.add]. split; [exact IH1 | rewrite IH2; lia].
      * destruct (same_counters_exec E w e Hnav Hcl) as [H1 H2].
        destruct (IH (exec E w e) k c) as [IH1 IH2].
        -- apply wf_exec, Hw.
        -- rewrite H1. exact Hi.
        -- rewrite H2. exact Hd.
        -- cbn [Nat.add]. split; [exact IH1 | rewrite IH2; lia].
Qed.

(** * What the UI receives *)

Lemma emitted_on_new E options w :
  exists p, emitted (on_new E options w)
            = emitted w ++ session_add p
                :: match initialSession w with Some _ => initialEvents w | None => [] end
            /\ a_rows p = rows (sessionOpts E w options)
            /\ a_cols p = cols (sessionOpts E w options)
            /\ a_splitDirection p = splitDirection (sessionOpts E w options)
            /\ a_uid p = match initialSession w with
                         | Some (uid, _) => uid
                         | None => uuid_v4 E (length (heap w))
                         end.
Proof.
  destruct (initialSession w) as [[uid r]|] eqn:Hinit.
  - rewrite (on_new_warmed E options w uid r Hinit). eexists. split.
    + unfold emitted. window_simpl. rewrite omap_app, omap_sent_emit, omap_rpc_emit. reflexivity.
    + cbn. auto.
  - rewrite (on_new_fresh E options w Hinit). eexists. split.
    + unfold emitted. window_simpl. rewrite omap_app. reflexivity.
    + cbn. auto.
Qed.

Lemma emitted_exec E w e : wf w -> exists rest, emitted (exec E w e) = emitted w ++ rest.
Proof.
  intros Hw. destruct (is_new e) eqn:He.
  - destruct e; try discriminate He.
    unfold exec, step, attached. rewrite (wf_attached w Hw).
    destruct (emitted_on_new E options w) as [p [H _]]. eexists. exact H.
  - destruct (frame_exec E w e Hw He) as [_ _ _ _ _ [cs [Hc _]] _].
    exists (omap sent cs). unfold emitted. rewrite Hc. apply omap_app.
Qed.

Lemma emitted_run E evs : forall w,
  wf w -> exists rest, emitted (run E w evs) = emitted w ++ rest.
Proof.
  induction evs as [|e evs IH]; intros w Hw.
  - exists []. rewrite app_nil_r. reflexivity.
  - rewrite run_cons. destruct (emitted_exec E w e Hw) as [r1 H1].
    destruct (IH (exec E w e) (wf_exec E w e Hw)) as [r2 H2].
    exists (r1 ++ r2). rewrite H2, H1, app_assoc. reflexivity.
Qed.

Lemma emitted_serving E cfg0 wd buffer options :
  emitted (serving E cfg0 wd buffer options)
  = add_for E (warming E cfg0 wd buffer) options 0 :: buffer.
Proof.
  unfold emitted, serving. window_simpl.
  rewrite omap_app, omap_sent_emit, omap_rpc_emit. reflexivity.
Qed.

Lemma serving_data E cfg0 wd buffer options data :
  emitted (exec E (serving E cfg0 wd buffer options) (session_emit_data 0 data))
  = emitted (serving E cfg0 wd buffer options) ++ [session_data (uuid_v4 E 0 +:+ data)].
Proof.
  unfold exec, step, session_emits_data. rewrite fold_data_listeners.
  rewrite emitted_do_calls. reflexivity.
Qed.

Lemma serving_exit E cfg0 wd buffer options :
  emitted (exec E (serving E cfg0 wd buffer options) (session_emit_exit 0))
  = emitted (serving E cfg0 wd buffer options) ++ [session_exit (Some (uuid_v4 E 0))].
Proof.
  unfold exec, step, session_emits_exit. rewrite fold_exit_listeners.
  unfold emitted. cbn. rewrite !omap_app. reflexivity.
Qed.

Lemma wf_serving E cfg0 wd buffer options : wf (serving E cfg0 wd buffer options).
Proof. rewrite <- warming_new. apply wf_exec, wf_warming. Qed.

Lemma added_uids_session_data uid chunks :
  added_uids (map (fun d => session_data (uid +:+ d)) chunks) = [].
Proof. induction chunks as [|d chunks IH]; [reflexivity | exact IH]. Qed.

(** C1. When the first ["new"] arrives after the warmer has buffered the
    data chunks [chunks] of the warmed session, nothing has been sent yet,
    the request sends exactly one ['session add'] (for the warmed session)
    followed by the buffered ['session data'] in arrival order, a chunk that
    arrives afterwards is forwarded after them, and whatever happens later
    only extends what was sent. *)
Theorem warmed_events_replayed_in_order E cfg0 wd (chunks : list string) options :
  let uid := uuid_v4 E 0 in
  let w1 := run E (opened E cfg0 wd) (map (session_emit_data 0) chunks) in
  let w2 := exec E w1 (rpc_new options) in
  emitted w1 = []
  /\ emitted w2 = add_for E w1 options 0 :: map (fun d => session_data (uid +:+ d)) chunks
  /\ added_uids (emitted w2) = [uid]
  /\ (forall later, emitted (exec E w2 (session_emit_data 0 later))
                    = emitted w2 ++ [session_data (uid +:+ later)])
  /\ (forall events, exists rest, emitted (run E w2 events) = emitted w2 ++ rest).
Proof.
  cbv zeta. rewrite opened_eq, warming_chunks, warming_new. cbn [app].
  split; [reflexivity|]. split; [apply emitted_serving|]. split; [|split].
  - rewrite emitted_serving. unfold add_for.
    rewrite added_uids_add, added_uids_session_data. reflexivity.
  - intros later. apply serving_data.
  - intros events. apply emitted_run, wf_serving.
Qed.

(** * Reuse of the warmed session *)

Lemma served_zero_warmed E w :
  served E 0 w ->
  initialSession w = Some (uuid_v4 E 0, 0)
  /\ session_shell_of 0 w = Session_shell E (mkCtor no_options (uuid_v4 E 0))
  /\ session_pid_of 0 w = Session_pid E 0.
Proof.
  intros [Hh Hm Hu Hb Hf Hi Hl]. split; [exact Hi|].
  unfold session_shell_of, session_pid_of.
  destruct (heap w !! 0) as [s|] eqn:H0.
  - destruct (Hm 0 s H0) as [Hc [Hs Hp]]. rewrite Hs, Hc, Hp. auto.
  - apply lookup_ge_None in H0. rewrite Hh in H0. cbn in H0. lia.
Qed.

Lemma reuse_before_new E w options :
  served E 0 w ->
  let w' := exec E w (rpc_new options) in
  rpc_attached w = true ->
  emitted w' = emitted w ++ add_for E w options 0 :: initialEvents w
  /\ map_get (uuid_v4 E 0) (sessions w') = Some 0
  /\ length (heap w') = 1
  /\ flushEvents_calls w' = 1.
Proof.
  intros Hs w' Ha. subst w'. unfold exec, step, attached. rewrite Ha.
  destruct (served_zero_warmed E w Hs) as [Hi [Hsh Hp]].
  rewrite (on_new_warmed E options w _ _ Hi).
  destruct Hs as [Hh Hm Hu Hb Hf _ Hl].
  unfold emitted. window_simpl. repeat split.
  - rewrite omap_app, omap_sent_emit, omap_rpc_emit, Hsh, Hp. reflexivity.
  - apply map_get_set_eq.
  - rewrite length_alter. exact Hh.
  - rewrite Hf. reflexivity.
Qed.

Lemma warming_exit_after_chunks E cfg0 wd chunks :
  run E (opened E cfg0 wd) (map (session_emit_data 0) chunks ++ [session_emit_exit 0])
  = warming E cfg0 wd
      (map (fun d => session_data (uuid_v4 E 0 +:+ d)) chunks ++ [session_exit None]).
Proof. rewrite run_snoc, opened_eq, warming_chunks, warming_exit. reflexivity. Qed.

(** C10. When the warmed session exits before the first ["new"] (after
    any data chunks), its registry entry stays, nothing is sent, and the
    request is served by that session: one ['session add'] for it, then the
    buffered data, then the buffered ['session exit']; the entry is still
    registered afterwards and no second session object exists. More
    generally, after any events [pre] without a ["new"] (navigations and
    a clean-up that empty the registry included) the first ["new"] is
    served by the warmed session and replays whatever the warmer holds. *)
Theorem dead_warmed_session_is_reused E cfg0 wd (chunks : list string) pre options :
  count is_new pre = 0 ->
  let uid := uuid_v4 E 0 in
  let buffered := map (fun d => session_data (uid +:+ d)) chunks in
  let w1 := run E (opened E cfg0 wd) (map (session_emit_data 0) chunks ++ [session_emit_exit 0]) in
  let w2 := exec E w1 (rpc_new options) in
  let v1 := run E (opened E cfg0 wd) pre in
  let v2 := exec E v1 (rpc_new options) in
  (map_get uid (sessions w1) = Some 0
   /\ emitted w1 = []
   /\ emitted w2 = add_for E w1 options 0 :: buffered ++ [session_exit None]
   /\ map_get uid (sessions w2) = Some 0
   /\ length (heap w2) = 1)
  /\ (emitted v2 = emitted v1 ++ add_for E v1 options 0 :: initialEvents v1
      /\ map_get uid (sessions v2) = Some 0
      /\ length (heap v2) = 1).
Proof.
  intros Hpre. cbv zeta. split.
  - rewrite warming_exit_after_chunks, warming_new.
    split; [cbn; rewrite String.eqb_refl; reflexivity|].
    split; [reflexivity|].
    split; [rewrite emitted_serving; reflexivity|].
    split; [cbn; rewrite String.eqb_refl; reflexivity | reflexivity].
  - rewrite opened_eq.
    pose proof (served_run E pre 0 (warming E cfg0 wd []) (wf_warming E cfg0 wd [])
                  (served_warming E cfg0 wd [] eq_refl)) as Hs.
    rewrite Hpre in Hs. cbn [Nat.add] in Hs.
    pose proof (wf_run E pre _ (wf_warming E cfg0 wd [])) as Hw.
    destruct (reuse_before_new E _ options Hs (wf_attached _ Hw)) as [H1 [H2 [H3 _]]].
    auto.
Qed.

Lemma dead_warmed_session_is_reused_witness :
  count is_new [did_navigate; did_navigate; window_clean] = 0
  /\ emitted (run posix_env (opened posix_env sample_cfg None)
               [session_emit_data 0 "a"; session_emit_exit 0; rpc_new None])
     = [add_for posix_env (opened posix_env sample_cfg None) None 0;
        session_data "S1a"; session_exit None]
  /\ length (heap (run posix_env (opened posix_env sample_cfg None)
                     [did_navigate; did_navigate; window_clean; rpc_new None])) = 1.
Proof.
  split; [reflexivity|].
  destruct (dead_warmed_session_is_reused posix_env sample_cfg None ["a"]
              [did_navigate; did_navigate; window_clean] None eq_refl)
    as [[_ [_ [H _]]] [_ [_ G]]].
  split; [exact H | exact G].
Defined.

(** C3 (what the code does). A ['session exit'] of the warmed session that
    is buffered and replayed by the flush is sent without any payload; the
    same exit arriving after the ["new"] is sent with the uid. *)
Theorem buffered_exit_replayed_without_uid E cfg0 wd options :
  let uid := uuid_v4 E 0 in
  let w0 := opened E cfg0 wd in
  emitted (run E w0 [session_emit_exit 0; rpc_new options])
  = [add_for E w0 options 0; session_exit None]
  /\ emitted (run E w0 [rpc_new options; session_emit_exit 0])
     = [add_for E w0 options 0; session_exit (Some uid)].
Proof.
  cbv zeta. rewrite opened_eq. split.
  - rewrite !run_cons, warming_exit, warming_new. cbn [run fold_left].
    rewrite emitted_serving. reflexivity.
  - rewrite !run_cons, warming_new. cbn [run fold_left].
    rewrite serving_exit, emitted_serving. reflexivity.
Qed.

(** * Reachable windows *)

Lemma wf_reachable E cfg0 wd events : wf (run E (opened E cfg0 wd) events).
Proof. rewrite opened_eq. apply wf_run, wf_warming. Qed.

Lemma served_reachable E cfg0 wd events :
  served E (count is_new events) (run E (opened E cfg0 wd) events).
Proof.
  rewrite opened_eq.
  apply (served_run E events 0); [apply wf_warming | apply served_warming; reflexivity].
Qed.

Lemma forallb_lookup {A} (p : A -> bool) (l : list A) :
  (forall r x, l !! r = Some x -> p x = true) -> forallb p l = true.
Proof.
  induction l as [|x l IH]; intros H; [reflexivity|].
  cbn. rewrite (H 0 x eq_refl), IH; [reflexivity|].
  intros r y Hy. exact (H (S r) y Hy).
Qed.

(** C2. After any events on an attached window, with [n] the number of
    ["new"] requests among them: the identifiers announced are those of
    the first [n] sessions constructed, one session object exists per
    request (the warmed one serving the first), [flushEvents] has run once
    if a request was made and never otherwise, and once it has run the
    warmed session is no longer held and no session object carries the
    warmer's listeners. *)
Theorem warmed_session_consumed_once E cfg0 wd events :
  let w := run E (opened E cfg0 wd) events in
  let n := count is_new events in
  added_uids (emitted w) = map (uuid_v4 E) (seq 0 n)
  /\ length (heap w) = Nat.max 1 n
  /\ flushEvents_calls w = Nat.min 1 n
  /\ flushEvents_calls w <= 1
  /\ match n with
     | 0 => initialSession w = Some (uuid_v4 E 0, 0)
     | S _ => initialSession w = None /\ forallb forwards_only (heap w) = true
     end.
Proof.
  cbv zeta. destruct (served_reachable E cfg0 wd events) as [Hh Hm Hu Hb Hf Hi Hl].
  split; [exact Hu|]. split; [exact Hh|]. split; [exact Hf|]. split; [rewrite Hf; lia|].
  destruct (count is_new events); [exact Hi|].
  split; [exact Hi|]. apply forallb_lookup. exact Hl.
Qed.

Lemma count_repeat_navigate n : count is_navigation (repeat did_navigate n) = n.
Proof.
  induction n as [|n IH]; [reflexivity|].
  cbn [repeat]. rewrite count_cons, IH. reflexivity.
Qed.

Lemma count_clean_repeat_navigate n : count is_clean (repeat did_navigate n) = 0.
Proof.
  induction n as [|n IH]; [reflexivity|].
  cbn [repeat]. rewrite count_cons, IH. reflexivity.
Qed.

(** C6. On an attached window, after any events: a navigation invokes
    [deleteSessions] exactly once if a navigation happened before and not
    at all if it is the first; in total [deleteSessions] has been invoked
    once per navigation after the first and once per clean-up; so [n]
    navigations alone invoke it [n - 1] times. *)
Theorem teardown_on_every_navigation_but_first E cfg0 wd events :
  let w := run E (opened E cfg0 wd) events in
  deleteSessions_calls (exec E w did_navigate)
  = deleteSessions_calls w + match count is_navigation events with 0 => 0 | S _ => 1 end
  /\ deleteSessions_calls w
     = Nat.pred (count is_navigation events) + count is_clean events
  /\ (forall n, deleteSessions_calls (run E (opened E cfg0 wd) (repeat did_navigate n))
                = Nat.pred n).
Proof.
  cbv zeta.
  assert (Hrun : forall evs,
    (i (run E (opened E cfg0 wd) evs) = 0%N <-> count is_navigation evs = 0)
    /\ deleteSessions_calls (run E (opened E cfg0 wd) evs)
       = Nat.pred (count is_navigation evs) + count is_clean evs).
  { intros evs. rewrite opened_eq.
    apply (counters_run E evs (warming E cfg0 wd []) 0 0);
      [apply wf_warming | split; reflexivity | reflexivity]. }
  destruct (Hrun events) as [Hi Hd].
  split; [|split].
  - destruct (counters_did_navigate E _ (wf_reachable E cfg0 wd events)) as [_ H].
    rewrite H. f_equal.
    destruct (i (run E (opened E cfg0 wd) events) =? 0)%N eqn:H0.
    + apply N.eqb_eq in H0. apply Hi in H0. rewrite H0. reflexivity.
    + apply N.eqb_neq in H0. destruct (count is_navigation events); [|reflexivity].
      exfalso. apply H0, Hi. reflexivity.
  - exact Hd.
  - intros n. destruct (Hrun (repeat did_navigate n)) as [_ H].
    rewrite H, count_repeat_navigate, count_clean_repeat_navigate. lia.
Qed.

Lemma deleteSessions_empty w : sessions w = [] -> deleteSessions w = count_deleteSessions w.
Proof. intros H. unfold deleteSessions. destruct w. cbn in *. subst. reflexivity. Qed.

(** C7. On any reachable window, after [deleteSessions] the registry is
    empty, so [get] finds no identifier; every session that was registered
    is still the same object (same constructor argument, shell and pid)
    and has no ['data'] and no ['exit'] listener left; [removeAllListeners]
    and [destroy] were called on each of them, in registry order, and
    nothing else was called; and calling [deleteSessions] on the now empty
    registry changes nothing but the count of invocations. *)
Theorem deleteSessions_empties_registry E cfg0 wd events :
  let w := run E (opened E cfg0 wd) events in
  let w' := deleteSessions w in
  sessions w' = []
  /\ (forall uid, map_get uid (sessions w') = None)
  /\ Forall (fun entry => exists s s',
                 heap w !! entry.2 = Some s
                 /\ heap w' !! entry.2 = Some s'
                 /\ on_data s' = [] /\ on_exit s' = []
                 /\ data_listeners entry.2 w' = [] /\ exit_listeners entry.2 w' = []
                 /\ s_ctor s' = s_ctor s /\ s_shell s' = s_shell s /\ s_pid s' = s_pid s)
       (sessions w)
  /\ log w' = log w ++ flat_map teardown_calls (sessions w)
  /\ deleteSessions w' = count_deleteSessions w'.
Proof.
  cbv zeta. pose proof (wf_reachable E cfg0 wd events) as [Ha Hc Hk Hr Hi].
  set (w := run E (opened E cfg0 wd) events) in *.
  assert (Hs : sessions (deleteSessions w) = []).
  { rewrite deleteSessions_eq by exact Hk. destruct w. reflexivity. }
  split; [exact Hs|]. split; [intros uid; rewrite Hs; reflexivity|].
  split; [|split].
  - apply Forall_forall. intros [k r] Hin. cbn [snd].
    destruct (lookup_lt_is_Some_2 (heap w) r (Hr k r Hin)) as [s Hsr].
    assert (Hh : heap (deleteSessions w) !! r = Some (removeAllListeners s)).
    { rewrite deleteSessions_eq by exact Hk.
      replace (heap _) with (detach_all (sessions w) (heap w)) by (destruct w; reflexivity).
      rewrite detach_all_detached, Hsr; [reflexivity|].
      apply (list_elem_of_fmap_2 snd _ (k, r)). exact Hin. }
    exists s, (removeAllListeners s). unfold data_listeners, exit_listeners.
    rewrite Hh. repeat split; [exact Hsr].
  - rewrite deleteSessions_eq by exact Hk. destruct w. reflexivity.
  - apply deleteSessions_empty, Hs.
Qed.

(** * Clean-up *)

Lemma log_do_calls cs w : log (do_calls cs w) = log w ++ cs.
Proof. destruct w. reflexivity. Qed.

Lemma clean_rpc_full w : NoDup (sessions w).*1 -> full_cleanup w (clean_rpc w).
Proof.
  intros Hk. unfold clean_rpc, do_call.
  rewrite deleteSessions_eq by (rewrite !sessions_do_calls; exact Hk).
  destruct w. unfold full_cleanup. cbn. rewrite <- !app_assoc. auto.
Qed.

(** C8, as the code has it. On a window whose channel is attached, after
    any events, the clean-up persists the window record, destroys the
    channel, tears down every registered session and unsubscribes from
    configuration and plugin changes, in this order. The constructor's
    window does the same except on win32, where the channel is not attached
    yet and the clean-up only persists the window record and unsubscribes
    from configuration changes. *)
Theorem clean_runs_full_teardown_once_attached E cfg0 wd events :
  let w := run E (opened E cfg0 wd) events in
  let w0 := Window E cfg0 in
  full_cleanup w (exec E w window_clean)
  /\ (if win32 E
      then log (exec E w0 window_clean) = log w0 ++ [winRecord; cfgUnsubscribe]
           /\ deleteSessions_calls (exec E w0 window_clean) = 0
      else full_cleanup w0 (exec E w0 window_clean)).
Proof.
  cbv zeta. split.
  - pose proof (wf_reachable E cfg0 wd events) as [Ha Hc Hk Hr Hi].
    unfold exec, step. rewrite Hc. apply clean_rpc_full, Hk.
  - unfold Window. destruct (win32 E) eqn:Hwin.
    + split; reflexivity.
    + unfold exec, step. cbn [clean attachRPC]. apply clean_rpc_full.
      cbn. apply NoDup_singleton.
Qed.

(** C8, as stated, fails: on win32 the window returned by the constructor
    is cleaned without destroying the channel, the sessions or the plugin
    subscription. *)
Lemma clean_before_attach_is_partial :
  let w0 := Window windows_env sample_cfg in
  log (exec windows_env w0 window_clean) = [config_subscribe; winRecord; cfgUnsubscribe]
  /\ ~ full_cleanup w0 (exec windows_env w0 window_clean).
Proof.
  cbv zeta. split; [reflexivity|].
  intros [H _]. cbn in H. discriminate H.
Qed.

(** * The options of a ["new"] request *)

Lemma new_cwd_spec E w :
  new_cwd E w = spec_cwd (workingDirectory w) (argv1 E) (isAbsolute E) (cfgDir E).
Proof.
  unfold new_cwd, spec_cwd.
  destruct (workingDirectory w) as [[|c d]|]; cbn;
    destruct (argv1 E) as [[|c' a]|]; cbn; try reflexivity;
    destruct (isAbsolute E (String c' a)); reflexivity.
Qed.

Lemma workingDirectory_exec E w e :
  wf w -> workingDirectory (exec E w e) = workingDirectory w.
Proof.
  intros Hw. destruct (is_new e) eqn:He.
  - destruct e; try discriminate He.
    unfold exec, step, attached. rewrite (wf_attached w Hw).
    destruct (initialSession w) as [[uid r]|] eqn:Hinit.
    + rewrite (on_new_warmed E options w uid r Hinit). reflexivity.
    + rewrite (on_new_fresh E options w Hinit). reflexivity.
  - apply (fr_wd _ _ (frame_exec E w e Hw He)).
Qed.

Lemma workingDirectory_run E evs : forall w,
  wf w -> workingDirectory (run E w evs) = workingDirectory w.
Proof.
  induction evs as [|e evs IH]; intros w Hw; [reflexivity|].
  rewrite run_cons, IH by (apply wf_exec, Hw). apply workingDirectory_exec, Hw.
Qed.

Lemma cfg_config_changed E w c : cfg (exec E w (config_changed c)) = c.
Proof.
  unfold exec, step, on_config_change, updateBackgroundColor.
  destruct (_ || _); destruct w; reflexivity.
Qed.

(** C9, as the code has it. For a ["new"] request on any reachable
    window, the merged configuration has rows 40 and cols 100 unless the
    request gives them, the working directory of the request or else the
    override given to [attachRPC] (win32 only), the absolute argv path or
    the configuration directory, and shell and shellArgs of the request or
    else of the configuration last notified; the ['session add'] sent for
    the request carries its rows, cols and splitDirection. The warmed
    session, which serves the first request, was constructed with no
    option but its uid. *)
Theorem new_merges_options_for_session_add E cfg0 wd events options :
  let w := run E (opened E cfg0 wd) events in
  let o := default no_options options in
  let so := sessionOpts E w options in
  rows so = default 40%Z (o_rows o)
  /\ cols so = default 100%Z (o_cols o)
  /\ cwd so = default (spec_cwd (if win32 E then wd else None)
                         (argv1 E) (isAbsolute E) (cfgDir E)) (o_cwd o)
  /\ splitDirection so = o_splitDirection o
  /\ shell so = from_option Some (cfg_shell (cfg w)) (o_shell o)
  /\ shellArgs so = from_option Some (cfg_shellArgs (cfg w)) (o_shellArgs o)
  /\ (forall c, cfg (exec E w (config_changed c)) = c)
  /\ (exists p rest,
        emitted (exec E w (rpc_new options)) = emitted w ++ session_add p :: rest
        /\ a_rows p = rows so /\ a_cols p = cols so
        /\ a_splitDirection p = splitDirection so)
  /\ (exists s, heap w !! 0 = Some s /\ s_ctor s = mkCtor no_options (uuid_v4 E 0))
  /\ match count is_new events with
     | 0 => added_uids (emitted (exec E w (rpc_new options))) = [uuid_v4 E 0]
     | S _ => True
     end.
Proof.
  cbv zeta. pose proof (wf_reachable E cfg0 wd events) as Hw.
  pose proof (served_reachable E cfg0 wd events) as Hs.
  set (w := run E (opened E cfg0 wd) events) in *.
  assert (Hwd : workingDirectory w = if win32 E then wd else None).
  { unfold w. rewrite opened_eq, workingDirectory_run by apply wf_warming. reflexivity. }
  split; [reflexivity|]. split; [reflexivity|].
  split; [unfold sessionOpts; cbn [cwd]; rewrite new_cwd_spec, Hwd; reflexivity|].
  split; [reflexivity|].
  split; [unfold sessionOpts; cbn [shell]; destruct (o_shell _); reflexivity|].
  split; [unfold sessionOpts; cbn [shellArgs]; destruct (o_shellArgs _); reflexivity|].
  split; [intros c; apply cfg_config_changed|].
  split; [|split].
  - unfold exec, step, attached. rewrite (wf_attached w Hw).
    destruct (emitted_on_new E options w) as [p [H1 [H2 [H3 [H4 _]]]]].
    exists p. eexists. split; [exact H1 | auto].
  - destruct (heap w !! 0) as [s|] eqn:H0.
    + exists s. split; [reflexivity|]. apply (sv_made _ _ _ Hs 0 s H0).
    + apply lookup_ge_None in H0. rewrite (sv_heap _ _ _ Hs) in H0. lia.
  - destruct (count is_new events) eqn:Hn; [|exact I].
    destruct (reuse_before_new E w options Hs (wf_attached w Hw)) as [H1 _].
    rewrite H1. unfold add_for.
    rewrite added_uids_app, (sv_uids _ _ _ Hs), added_uids_add, (sv_buffer _ _ _ Hs).
    reflexivity.
Qed.

(** C9, as stated, fails: the session that serves the first request was
    constructed before the request, with no rows, cols, cwd, shell or
    shellArgs. *)
Lemma warmed_session_not_constructed_with_merged_options :
  let w1 := opened posix_env sample_cfg None in
  let w2 := exec posix_env w1 (rpc_new (Some no_options)) in
  added_uids (emitted w2) = ["S1"]
  /\ exists s, heap w2 !! 0 = Some s
               /\ c_uid (s_ctor s) = "S1"
               /\ ~ constructed_with (sessionOpts posix_env w1 (Some no_options)) (s_ctor s).
Proof.
  cbv zeta. split; [reflexivity|]. eexists. split; [reflexivity|]. split; [reflexivity|].
  intros [H _]. discriminate H.
Qed.

(** * Unknown sessions *)

(** C4. A ["resize"], ["data"] or ["exit"] whose uid is not in the
    registry returns normally and leaves the whole window unchanged: no
    call is logged, no entry and no session object is touched. *)
Theorem unknown_session_ignored E w uid (cols rows : Z) data escaped :
  map_get uid (sessions w) = None ->
  step E w (rpc_exit (Some uid)) = Ok w
  /\ step E w (rpc_resize (Some (mkResize uid cols rows))) = Ok w
  /\ step E w (rpc_data (Some (mkData uid data escaped))) = Ok w.
Proof.
  intros H. unfold step, destructure, on_exit_req, on_resize, on_data_req. cbn.
  rewrite H. destruct (rpc_attached w); auto.
Qed.

Lemma unknown_session_ignored_witness :
  let w := run posix_env (opened posix_env sample_cfg None) [rpc_new None; rpc_new None] in
  map_get "S7" (sessions w) = None
  /\ step posix_env w (rpc_exit (Some "S7")) = Ok w
  /\ step posix_env w (rpc_resize (Some (mkResize "S7" 80 24))) = Ok w
  /\ step posix_env w (rpc_data (Some (mkData "S7" "ls" true))) = Ok w.
Proof.
  cbv zeta. split; [reflexivity|].
  apply (unknown_session_ignored posix_env _ "S7" 80 24 "ls" true). reflexivity.
Defined.

(** * Quoting *)



Example single_quote_round_trip :
  escapedData "/bin/sh" "it's" = "'it'\''s'"
  /\ shell_eval "/bin/sh" (escapedData "/bin/sh" "it's") = Some "it's".
Proof. split; reflexivity. Qed.


(** * Effects of the events on registry, session objects and destroy calls *)

Lemma destroyed_app l1 l2 : destroyed (l1 ++ l2) = destroyed l1 ++ destroyed l2.
Proof. apply omap_app. Qed.

Lemma destroyed_teardown entries : destroyed (flat_map teardown_calls entries) = entries.*2.
Proof.
  induction entries as [|p entries IH]; [reflexivity|].
  cbn. f_equal. exact IH.
Qed.

Lemma destroyed_forwarded data ls : destroyed (omap (forwarded_by data) ls) = [].
Proof. induction ls as [|[u|u] ls IH]; [reflexivity | exact IH | exact IH]. Qed.

Lemma destroyed_exit_forwarded ls : destroyed (omap exit_forwarded_by ls) = [].
Proof. induction ls as [|[|u] ls IH]; [reflexivity | exact IH | exact IH]. Qed.

Lemma destroyed_map_emit l : destroyed (map rpc_emit l) = [].
Proof. induction l as [|m l IH]; [reflexivity | exact IH]. Qed.

Lemma effects_deleteSessions w :
  NoDup (sessions w).*1 ->
  sessions (deleteSessions w) = []
  /\ heap (deleteSessions w) = detach_all (sessions w) (heap w)
  /\ log (deleteSessions w) = log w ++ flat_map teardown_calls (sessions w).
Proof. intros Hk. rewrite deleteSessions_eq by exact Hk. destruct w. auto. Qed.

Lemma effects_exec E w e :
  wf w -> is_new e = false ->
  sessions (exec E w e)
  = (if tears_down w e then [] else delete_all (unregistered_by w e) (sessions w))
  /\ heap (exec E w e)
     = (if tears_down w e then detach_all (sessions w) (heap w) else heap w)
  /\ destroyed (log (exec E w e))
     = destroyed (log w) ++ (if tears_down w e then (sessions w).*2 else []).
Proof.
  intros [Ha Hc Hk Hr Hi] Hnew.
  destruct e; try discriminate Hnew;
    unfold exec, step, attached, destructure; rewrite ?Ha, ?Hc;
    cbn [tears_down unregistered_by delete_all fold_left].
  - destruct payload as [uid|]; [|rewrite app_nil_r; auto].
    unfold on_exit_req. destruct (map_get uid (sessions w)); [|rewrite app_nil_r; auto].
    destruct w. cbn. rewrite destroyed_app. auto.
  - destruct payload as [p|]; [|rewrite app_nil_r; auto].
    unfold on_resize. destruct (map_get _ (sessions w)); [|rewrite app_nil_r; auto].
    destruct w. cbn. rewrite destroyed_app. auto.
  - destruct payload as [p|]; [|rewrite app_nil_r; auto].
    unfold on_data_req. destruct (map_get _ (sessions w)); [|rewrite app_nil_r; auto].
    destruct (d_escaped p); destruct w; cbn; rewrite destroyed_app; auto.
  - destruct w. cbn. rewrite destroyed_app. auto.
  - destruct w. cbn. rewrite destroyed_app. auto.
  - destruct w. cbn. rewrite destroyed_app. auto.
  - destruct w. cbn. rewrite destroyed_app. auto.
  - destruct w. cbn. rewrite destroyed_app. auto.
  - destruct w. cbn. rewrite destroyed_app. auto.
  - unfold on_did_navigate. destruct (i w =? 0)%N; cbn [negb].
    + destruct w. cbn. rewrite app_nil_r. auto.
    + destruct (effects_deleteSessions (set_i (incr (i w)) w)) as [H1 [H2 H3]].
      { rewrite sessions_set_i. exact Hk. }
      rewrite H1, H2, H3, destroyed_app, destroyed_teardown. destruct w. auto.
  - unfold on_config_change, updateBackgroundColor.
    destruct (_ || _); destruct w; cbn; rewrite !destroyed_app; cbn;
      rewrite ?app_nil_r; auto.
  - unfold on_plugins_change. destruct err; [rewrite app_nil_r; auto|].
    unfold updateBackgroundColor. destruct w. cbn. rewrite !destroyed_app. cbn.
    rewrite ?app_nil_r. auto.
  - unfold clean_rpc.
    destruct (effects_deleteSessions (do_call rpc_destroy (do_call winRecord w)))
      as [H1 [H2 H3]].
    { unfold do_call. rewrite !sessions_do_calls. exact Hk. }
    unfold do_call in *. rewrite !sessions_do_calls, !log_do_calls in *.
    rewrite H1, H3, !destroyed_app, destroyed_teardown.
    replace (heap (do_calls _ (do_calls _ (deleteSessions _))))
      with (heap (deleteSessions (do_calls [rpc_destroy] (do_calls [winRecord] w))))
      by (destruct (deleteSessions _); reflexivity).
    rewrite H2. destruct w. cbn. rewrite !app_nil_r. auto.
  - unfold session_emits_data. rewrite fold_data_listeners.
    destruct w. cbn. rewrite destroyed_app, destroyed_forwarded. auto.
  - unfold session_emits_exit. rewrite fold_exit_listeners.
    destruct w. cbn. rewrite destroyed_app, destroyed_exit_forwarded. auto.
Qed.

(** * Registered sessions and their listeners *)

Lemma listening_warming E cfg0 wd buffer : listening E (warming E cfg0 wd buffer).
Proof.
  intros k r H. apply list_elem_of_singleton in H. injection H as -> ->.
  split; [reflexivity|]. eexists. split; [reflexivity|]. cbn. auto.
Qed.

Lemma listening_on_new E n options w :
  served E n w -> listening E w -> listening E (on_new E options w).
Proof.
  intros Hs Hl. pose proof Hs as [Hh Hm Hu Hb Hf Hi Hsl]. destruct n as [|n].
  - rewrite (on_new_warmed E options w _ _ Hi). intros k r Hin. window_simpl.
    assert (r = 0 /\ k = uuid_v4 E 0) as [-> ->].
    { apply elem_of_map_set in Hin as [[= -> ->]|Hin]; [auto|].
      destruct (Hl k r Hin) as [Hk [s [Hr _]]].
      apply lookup_lt_Some in Hr. rewrite Hh in Hr. cbn in Hr.
      assert (r = 0) as -> by lia. auto. }
    split; [reflexivity|].
    destruct (heap w !! 0) as [s0|] eqn:H0.
    2:{ apply lookup_ge_None in H0. rewrite Hh in H0. cbn in H0. lia. }
    exists (serve (uuid_v4 E 0) (uuid_v4 E 0) true s0).
    rewrite list_lookup_alter_eq, H0. split; [reflexivity|].
    destruct (Hm 0 s0 H0) as [Hc _]. destruct (Hsl 0 s0 H0) as [Hd He].
    split; [cbn; rewrite Hc; reflexivity|].
    unfold serve, removeListener. cbn.
    destruct Hd as [-> | ->], He as [-> | ->]; cbn; rewrite ?String.eqb_refl; auto.
  - pose proof (on_new_fresh E options w Hi) as Hnew. cbv zeta in Hnew. rewrite Hnew.
    intros k r Hin. window_simpl.
    apply elem_of_map_set in Hin as [[= -> ->]|Hin].
    + split; [reflexivity|]. eexists. split; [apply list_lookup_middle; reflexivity|].
      cbn. auto.
    + destruct (Hl k r Hin) as [Hk [s [Hr Hrest]]].
      split; [exact Hk|]. exists s. split; [apply lookup_app_l_Some, Hr|].
      rewrite Hi in Hrest. exact Hrest.
Qed.

Lemma listening_exec E n w e :
  wf w -> served E n w -> listening E w -> listening E (exec E w e).
Proof.
  intros Hw Hs Hl. destruct (is_new e) eqn:He.
  - destruct e; try discriminate He.
    unfold exec, step, attached. rewrite (wf_attached w Hw).
    eapply listening_on_new; eassumption.
  - destruct (effects_exec E w e Hw He) as [H1 [H2 _]].
    pose proof (fr_initial _ _ (frame_exec E w e Hw He)) as H3.
    intros k r Hin. rewrite H1 in Hin. rewrite H2, H3.
    destruct (tears_down w e); [inversion Hin|].
    apply elem_of_delete_all in Hin. exact (Hl k r Hin).
Qed.

Lemma listening_run E evs : forall n w,
  wf w -> served E n w -> listening E w -> listening E (run E w evs).
Proof.
  induction evs as [|e evs IH]; intros n w Hw Hs Hl; [exact Hl|].
  rewrite run_cons.
  apply (IH (n + (if is_new e then 1 else 0)));
    [apply wf_exec, Hw | apply served_exec; assumption | eapply listening_exec; eassumption].
Qed.

Lemma listening_reachable E cfg0 wd events : listening E (run E (opened E cfg0 wd) events).
Proof.
  rewrite opened_eq.
  apply (listening_run E events 0);
    [apply wf_warming | apply served_warming; reflexivity | apply listening_warming].
Qed.

Lemma map_get_elem_NoDup k r m : NoDup m.*1 -> (k, r) ∈ m -> map_get k m = Some r.
Proof.
  induction m as [|[k' v] m IH]; intros Hnd Hin; [inversion Hin|].
  cbn in Hnd. apply NoDup_cons in Hnd as [Hnin Hnd]. cbn.
  apply elem_of_cons in Hin as [[= -> ->]|Hin].
  - rewrite String.eqb_refl. reflexivity.
  - destruct (String.eqb k' k) eqn:Hk; [|exact (IH Hnd Hin)].
    apply String.eqb_eq in Hk. subst k'. exfalso. apply Hnin.
    apply (list_elem_of_fmap_2 fst _ (k, r)). exact Hin.
Qed.

(** X1. On every reachable window the registry is a map whose entries
    name existing session objects by the uid they were constructed with:
    keys are distinct, and [sessions.get(k)] returns a session exactly when
    an entry for [k] exists, that session having been constructed with uid
    [k]. *)
Theorem registry_names_sessions_by_their_uid E cfg0 wd events :
  let w := run E (opened E cfg0 wd) events in
  NoDup (sessions w).*1
  /\ Forall (fun entry => map_get entry.1 (sessions w) = Some entry.2
                          /\ entry.1 = uuid_v4 E entry.2
                          /\ exists s, heap w !! entry.2 = Some s
                                       /\ c_uid (s_ctor s) = entry.1)
       (sessions w).
Proof.
  cbv zeta. pose proof (wf_reachable E cfg0 wd events) as [Ha Hc Hk Hr Hi].
  split; [exact Hk|]. apply Forall_forall. intros [k r] Hin. cbn [fst snd].
  destruct (listening_reachable E cfg0 wd events k r Hin) as [Hu [s [Hs [Hcu _]]]].
  split; [apply map_get_elem_NoDup; assumption|]. split; [exact Hu|].
  exists s. auto.
Qed.

(** * Events of registered sessions *)

Lemma data_listeners_do_calls cs r w : data_listeners r (do_calls cs w) = data_listeners r w.
Proof. destruct w. reflexivity. Qed.

Lemma do_calls_do_calls cs1 cs2 w : do_calls cs2 (do_calls cs1 w) = do_calls (cs1 ++ cs2) w.
Proof. destruct w. cbn. rewrite app_assoc. reflexivity. Qed.

Lemma do_calls_nil w : do_calls [] w = w.
Proof. destruct w. cbn. rewrite app_nil_r. reflexivity. Qed.

Lemma forward_data E r k data w :
  data_listeners r w = [forwardData k] ->
  exec E w (session_emit_data r data) = do_calls [rpc_emit (session_data (k +:+ data))] w.
Proof.
  intros H. unfold exec, step, session_emits_data. rewrite fold_data_listeners, H.
  destruct w. cbn. rewrite app_nil_r. reflexivity.
Qed.

Lemma forward_chunks E r k chunks : forall w,
  data_listeners r w = [forwardData k] ->
  run E w (map (session_emit_data r) chunks)
  = do_calls (map (fun d => rpc_emit (session_data (k +:+ d))) chunks) w.
Proof.
  induction chunks as [|d chunks IH]; intros w H; cbn [map].
  - rewrite do_calls_nil. reflexivity.
  - rewrite run_cons, (forward_data E r k d w H), IH, do_calls_do_calls; [reflexivity|].
    rewrite data_listeners_do_calls. exact H.
Qed.

Lemma registered_listeners E cfg0 wd events k r :
  let w := run E (opened E cfg0 wd) events in
  count is_new events <> 0 ->
  map_get k (sessions w) = Some r ->
  data_listeners r w = [forwardData k] /\ exit_listeners r w = [forwardExit k].
Proof.
  cbv zeta. intros Hn Hr. apply map_get_Some_elem in Hr.
  destruct (listening_reachable E cfg0 wd events k r Hr) as [_ [s [Hs [_ Hl]]]].
  pose proof (sv_initial _ _ _ (served_reachable E cfg0 wd events)) as Hi.
  destruct (count is_new events); [contradiction|]. rewrite Hi in Hl.
  unfold data_listeners, exit_listeners. rewrite Hs. exact Hl.
Qed.

(** X2. Once a ["new"] has been served, the data chunks of any registered
    session are sent to the UI one message per chunk, in arrival order,
    each prefixed with the uid the session is registered under; nothing
    else in the window changes. *)
Theorem registered_session_data_forwarded_in_order E cfg0 wd events k r (chunks : list string) :
  let w := run E (opened E cfg0 wd) events in
  count is_new events <> 0 ->
  map_get k (sessions w) = Some r ->
  run E w (map (session_emit_data r) chunks)
  = do_calls (map (fun d => rpc_emit (session_data (k +:+ d))) chunks) w
  /\ emitted (run E w (map (session_emit_data r) chunks))
     = emitted w ++ map (fun d => session_data (k +:+ d)) chunks.
Proof.
  cbv zeta. intros Hn Hr.
  destruct (registered_listeners E cfg0 wd events k r Hn Hr) as [Hd _].
  rewrite (forward_chunks E r k chunks _ Hd). split; [reflexivity|].
  rewrite emitted_do_calls. f_equal.
  induction chunks as [|d chunks IH]; [reflexivity|]. cbn [map].
  rewrite omap_sent_emit, IH. reflexivity.
Qed.

Lemma registered_session_data_forwarded_in_order_witness :
  let w := run posix_env (opened posix_env sample_cfg None) [rpc_new None; rpc_new None] in
  map_get "S2" (sessions w) = Some 1
  /\ emitted (run posix_env w [session_emit_data 1 "ls"; session_emit_data 1 " -l"])
     = emitted w ++ [session_data "S2ls"; session_data "S2 -l"].
Proof.
  cbv zeta. split; [reflexivity|].
  refine (proj2 (registered_session_data_forwarded_in_order posix_env sample_cfg None
                   [rpc_new None; rpc_new None] "S2" 1 ["ls"; " -l"] _ eq_refl)).
  discriminate.
Defined.

Lemma map_delete_get_None k m : map_get k m = None -> map_delete k m = m.
Proof.
  induction m as [|[k' v] m IH]; [reflexivity|]. cbn.
  destruct (String.eqb k' k); [discriminate|]. intros H. rewrite (IH H). reflexivity.
Qed.

(** X3. Once a ["new"] has been served, for a session registered under
    [k]: an ["exit"] request calls [exit] on it and leaves it registered;
    when the session then emits ['exit'], the UI receives one
    ['session exit'] with uid [k], the entry of [k] and no other is
    removed, no session object changes, and a later ["data"] for [k] is
    dropped. *)
Theorem exited_session_announced_and_unregistered E cfg0 wd events k r data escaped :
  let w := run E (opened E cfg0 wd) events in
  count is_new events <> 0 ->
  map_get k (sessions w) = Some r ->
  let w' := exec E w (session_emit_exit r) in
  step E w (rpc_exit (Some k)) = Ok (do_call (session_exit_call r) w)
  /\ sessions (do_call (session_exit_call r) w) = sessions w
  /\ emitted w' = emitted w ++ [session_exit (Some k)]
  /\ sessions w' = map_delete k (sessions w)
  /\ map_get k (sessions w') = None
  /\ heap w' = heap w
  /\ step E w' (rpc_data (Some (mkData k data escaped))) = Ok w'.
Proof.
  cbv zeta. intros Hn Hr.
  destruct (registered_listeners E cfg0 wd events k r Hn Hr) as [_ He].
  pose proof (wf_attached _ (wf_reachable E cfg0 wd events)) as Ha.
  set (w := run E (opened E cfg0 wd) events) in *.
  assert (Hw' : exec E w (session_emit_exit r)
                = set_sessions (map_delete k (sessions w))
                    (do_calls [rpc_emit (session_exit (Some k))] w)).
  { unfold exec, step, session_emits_exit. rewrite fold_exit_listeners, He.
    destruct w. cbn. rewrite app_nil_r. reflexivity. }
  split; [unfold step, destructure, on_exit_req; rewrite Ha, Hr; reflexivity|].
  split; [apply sessions_do_calls|].
  rewrite Hw'.
  assert (Hs : sessions (set_sessions (map_delete k (sessions w))
                           (do_calls [rpc_emit (session_exit (Some k))] w))
               = map_delete k (sessions w)) by (destruct w; reflexivity).
  split; [destruct w; unfold emitted; cbn; rewrite omap_app; reflexivity|].
  split; [exact Hs|].
  split; [rewrite Hs; apply map_get_delete_eq|].
  split; [destruct w; reflexivity|].
  unfold step, destructure, on_data_req. cbn [d_uid d_data d_escaped].
  rewrite Hs, map_get_delete_eq. destruct w. cbn in *. rewrite Ha. reflexivity.
Qed.

Lemma exited_session_announced_and_unregistered_witness :
  let w := run posix_env (opened posix_env sample_cfg None) [rpc_new None; rpc_new None] in
  let w' := exec posix_env w (session_emit_exit 0) in
  map_get "S1" (sessions w) = Some 0
  /\ emitted w' = emitted w ++ [session_exit (Some "S1")]
  /\ sessions w' = [("S2", 1)].
Proof.
  cbv zeta.
  assert (Hn : count is_new [rpc_new None; rpc_new None] <> 0) by discriminate.
  destruct (exited_session_announced_and_unregistered posix_env sample_cfg None
              [rpc_new None; rpc_new None] "S1" 0 "ls" false Hn eq_refl)
    as [_ [_ [H1 [H2 _]]]].
  split; [reflexivity|]. split; [exact H1 | exact H2].
Defined.

(** X4. On every reachable window a ["new"] request announces the
    session it registers: the uid of the ['session add'] is a key of the
    registry afterwards, the session behind it is the one constructed with
    that uid (the warmed one for the first request, a new object for every
    later one), the announced pid and shell are those of that session, and
    that session carries exactly one forwarding listener for ['data'] and
    one for ['exit']. *)
Theorem new_announces_the_session_it_registers E cfg0 wd events options :
  let w := run E (opened E cfg0 wd) events in
  let w1 := exec E w (rpc_new options) in
  let r := count is_new events in
  exists p,
    emitted w1 = emitted w ++ session_add p
                   :: match r with 0 => initialEvents w | S _ => [] end
    /\ map_get (a_uid p) (sessions w1) = Some r
    /\ a_uid p = uuid_v4 E r
    /\ a_pid p = Session_pid E r
    /\ a_shell p = Session_shell E (mkCtor no_options (a_uid p))
    /\ data_listeners r w1 = [forwardData (a_uid p)]
    /\ exit_listeners r w1 = [forwardExit (a_uid p)].
Proof.
  cbv zeta. pose proof (wf_reachable E cfg0 wd events) as Hw.
  pose proof (served_reachable E cfg0 wd events) as Hs.
  assert (Hreg : forall k, map_get k (sessions (exec E (run E (opened E cfg0 wd) events)
                                                  (rpc_new options)))
                           = Some (count is_new events) ->
                 data_listeners (count is_new events)
                   (exec E (run E (opened E cfg0 wd) events) (rpc_new options))
                 = [forwardData k]
                 /\ exit_listeners (count is_new events)
                      (exec E (run E (opened E cfg0 wd) events) (rpc_new options))
                    = [forwardExit k]).
  { intros k Hk. rewrite <- run_snoc in *.
    apply (registered_listeners E cfg0 wd (events ++ [rpc_new options]) k _); [|exact Hk].
    rewrite count_app. unfold count at 2. cbn. lia. }
  set (w := run E (opened E cfg0 wd) events) in *.
  destruct (count is_new events) as [|n] eqn:Hn.
  - destruct (reuse_before_new E w options Hs (wf_attached w Hw)) as [H1 [H2 _]].
    exists (match add_for E w options 0 with session_add p => p | _ => mkAdd 0 0 "" None "" 0 end).
    cbn [add_for a_uid a_pid a_shell].
    split; [exact H1|]. split; [exact H2|]. repeat (split; [reflexivity|]).
    apply (Hreg _ H2).
  - pose proof (sv_initial _ _ _ Hs) as Hi. cbn in Hi.
    assert (Hlen : length (heap w) = S n) by (rewrite (sv_heap _ _ _ Hs); lia).
    assert (H2 : map_get (uuid_v4 E (S n)) (sessions (exec E w (rpc_new options))) = Some (S n)).
    { unfold exec, step, attached. rewrite (wf_attached w Hw).
      pose proof (on_new_fresh E options w Hi) as Hnew. cbv zeta in Hnew.
      rewrite Hnew, Hlen. apply map_get_set_eq. }
    exists (match add_for E w options (S n) with session_add p => p | _ => mkAdd 0 0 "" None "" 0 end).
    cbn [add_for a_uid a_pid a_shell].
    split.
    + unfold exec, step, attached. rewrite (wf_attached w Hw).
      pose proof (on_new_fresh E options w Hi) as Hnew. cbv zeta in Hnew.
      rewrite Hnew, Hlen. unfold emitted. cbn [log]. rewrite omap_app. reflexivity.
    + split; [exact H2|]. repeat (split; [reflexivity|]). apply (Hreg _ H2).
Qed.

(** * Teardown *)

Lemma silent_without_listeners E r data w :
  data_listeners r w = [] -> exit_listeners r w = [] ->
  exec E w (session_emit_data r data) = w /\ exec E w (session_emit_exit r) = w.
Proof.
  intros Hd He. unfold exec, step, session_emits_data, session_emits_exit.
  rewrite Hd, He. split; reflexivity.
Qed.

Lemma detached_listeners r (w w' : window) :
  r ∈ (sessions w).*2 ->
  heap w' = detach_all (sessions w) (heap w) ->
  data_listeners r w' = [] /\ exit_listeners r w' = [].
Proof.
  intros Hr Hh. unfold data_listeners, exit_listeners.
  rewrite Hh, (detach_all_detached _ _ _ Hr).
  destruct (heap w !! r); split; reflexivity.
Qed.

Lemma navigated_before E cfg0 wd events :
  i (run E (opened E cfg0 wd) events) = 0%N <-> count is_navigation events = 0.
Proof.
  rewrite opened_eq.
  apply (counters_run E events (warming E cfg0 wd []) 0 0);
    [apply wf_warming | split; reflexivity | reflexivity].
Qed.

Lemma listeners_frame r (w w' : window) :
  (heap w' !! r = heap w !! r \/ heap w' !! r = removeAllListeners <$> heap w !! r) ->
  data_listeners r w = [] -> exit_listeners r w = [] ->
  data_listeners r w' = [] /\ exit_listeners r w' = [].
Proof.
  unfold data_listeners, exit_listeners. intros [-> | ->] Hd He; [auto|].
  destruct (heap w !! r); auto.
Qed.

(** A session object without listeners keeps none as long as no ["new"]
    is served from the warmed session. *)
Lemma silent_exec E r w e :
  wf w -> r < length (heap w) ->
  initialSession w = None \/ is_new e = false ->
  data_listeners r w = [] -> exit_listeners r w = [] ->
  data_listeners r (exec E w e) = [] /\ exit_listeners r (exec E w e) = [].
Proof.
  intros Hw Hr Hcase Hd He. destruct (is_new e) eqn:Hn.
  - destruct Hcase as [Hi|Hf]; [|discriminate Hf].
    destruct e; try discriminate Hn.
    unfold exec, step, attached. rewrite (wf_attached w Hw).
    pose proof (on_new_fresh E options w Hi) as Hnew. cbv zeta in Hnew. rewrite Hnew.
    unfold data_listeners, exit_listeners in *. cbn [heap].
    rewrite (lookup_app_l _ _ _ Hr). auto.
  - apply (listeners_frame r w); [|exact Hd|exact He].
    apply (fr_heap _ _ (frame_exec E w e Hw Hn)).
Qed.

Lemma initialSession_exec E w e :
  wf w -> initialSession w = None -> initialSession (exec E w e) = None.
Proof.
  intros Hw Hi. destruct (is_new e) eqn:Hn.
  - destruct e; try discriminate Hn.
    unfold exec, step, attached. rewrite (wf_attached w Hw).
    pose proof (on_new_fresh E options w Hi) as Hnew. cbv zeta in Hnew. rewrite Hnew.
    reflexivity.
  - rewrite (fr_initial _ _ (frame_exec E w e Hw Hn)). exact Hi.
Qed.

Lemma length_heap_exec E w e : wf w -> length (heap w) <= length (heap (exec E w e)).
Proof.
  intros Hw. destruct (is_new e) eqn:Hn.
  - destruct e; try discriminate Hn.
    unfold exec, step, attached. rewrite (wf_attached w Hw).
    destruct (initialSession w) as [[uid r]|] eqn:Hi.
    + rewrite (on_new_warmed E options w uid r Hi). cbn [heap]. rewrite length_alter. lia.
    + pose proof (on_new_fresh E options w Hi) as Hnew. cbv zeta in Hnew. rewrite Hnew.
      cbn [heap]. rewrite length_app. lia.
  - rewrite (fr_length _ _ (frame_exec E w e Hw Hn)). lia.
Qed.

Lemma silent_run E r later : forall w,
  wf w -> r < length (heap w) ->
  initialSession w = None \/ count is_new later = 0 ->
  data_listeners r w = [] -> exit_listeners r w = [] ->
  data_listeners r (run E w later) = [] /\ exit_listeners r (run E w later) = [].
Proof.
  induction later as [|e later IH]; intros w Hw Hr Hcase Hd He; [auto|].
  rewrite run_cons.
  assert (Hcase1 : initialSession w = None \/ is_new e = false).
  { destruct Hcase as [Hi|Hc]; [left; exact Hi|]. right.
    rewrite count_cons in Hc. destruct (is_new e); [discriminate | reflexivity]. }
  destruct (silent_exec E r w e Hw Hr Hcase1 Hd He) as [Hd' He'].
  apply IH; [apply wf_exec, Hw | | | exact Hd' | exact He'].
  - pose proof (length_heap_exec E w e Hw). lia.
  - destruct Hcase as [Hi|Hc]; [left; apply initialSession_exec; assumption|].
    right. rewrite count_cons in Hc. lia.
Qed.

(** X5. After a clean-up, and after any navigation but the first, the
    sessions that were registered at that moment stay silent through
    whatever happens later: a ['data'] or an ['exit'] they emit then sends
    nothing to the UI and changes nothing in the window. This holds when a
    ["new"] had been served before the teardown, or when no ["new"]
    follows it; the first ["new"] of a window serves the warmed session
    even if it was torn down, and gives it listeners again. *)
Theorem torn_down_sessions_are_silent E cfg0 wd events later k r data :
  let w := run E (opened E cfg0 wd) events in
  map_get k (sessions w) = Some r ->
  count is_new events <> 0 \/ count is_new later = 0 ->
  let wc := run E (exec E w window_clean) later in
  let wn := run E (exec E w did_navigate) later in
  (exec E wc (session_emit_data r data) = wc /\ exec E wc (session_emit_exit r) = wc)
  /\ match count is_navigation events with
     | 0 => True
     | S _ => exec E wn (session_emit_data r data) = wn
              /\ exec E wn (session_emit_exit r) = wn
     end.
Proof.
  cbv zeta. intros Hr Hcase. pose proof (wf_reachable E cfg0 wd events) as Hw.
  pose proof (served_reachable E cfg0 wd events) as Hs.
  assert (Hlen : r < length (heap (run E (opened E cfg0 wd) events))).
  { apply (wf_refs _ Hw k r), map_get_Some_elem, Hr. }
  apply map_get_Some_elem in Hr. apply (list_elem_of_fmap_2 snd) in Hr. cbn in Hr.
  assert (Hafter : forall e,
            is_new e = false ->
            tears_down (run E (opened E cfg0 wd) events) e = true ->
            exec E (run E (exec E (run E (opened E cfg0 wd) events) e) later)
              (session_emit_data r data)
            = run E (exec E (run E (opened E cfg0 wd) events) e) later
            /\ exec E (run E (exec E (run E (opened E cfg0 wd) events) e) later)
                 (session_emit_exit r)
               = run E (exec E (run E (opened E cfg0 wd) events) e) later).
  { intros e Hn Ht.
    destruct (effects_exec E _ e Hw Hn) as [_ [Hh _]]. rewrite Ht in Hh.
    destruct (detached_listeners r _ _ Hr Hh) as [Hd He].
    pose proof (frame_exec E _ e Hw Hn) as Hf.
    destruct (silent_run E r later (exec E (run E (opened E cfg0 wd) events) e)) as [Hd' He'].
    - apply wf_exec, Hw.
    - rewrite (fr_length _ _ Hf). exact Hlen.
    - destruct Hcase as [Hc|Hc]; [left | right; exact Hc].
      rewrite (fr_initial _ _ Hf), (sv_initial _ _ _ Hs).
      destruct (count is_new events); [contradiction | reflexivity].
    - exact Hd.
    - exact He.
    - apply silent_without_listeners; assumption. }
  split; [apply (Hafter window_clean); reflexivity|].
  destruct (count is_navigation events) as [|n] eqn:Hn; [exact I|].
  apply (Hafter did_navigate); [reflexivity|]. cbn [tears_down].
  destruct (i (run E (opened E cfg0 wd) events) =? 0)%N eqn:Hi; [|reflexivity].
  apply N.eqb_eq, navigated_before in Hi. congruence.
Qed.

Lemma torn_down_sessions_are_silent_witness :
  let w := run posix_env (opened posix_env sample_cfg None) [rpc_new None; did_navigate] in
  let wn := run posix_env (exec posix_env w did_navigate)
              [rpc_new None; session_emit_data 1 "x"; did_navigate] in
  map_get "S1" (sessions w) = Some 0
  /\ (count is_new [rpc_new None; did_navigate] <> 0
      \/ count is_new [rpc_new None; session_emit_data 1 "x"; did_navigate] = 0)
  /\ exec posix_env wn (session_emit_data 0 "late") = wn.
Proof.
  cbv zeta. split; [reflexivity|].
  assert (Hc : count is_new [rpc_new None; did_navigate] <> 0
               \/ count is_new [rpc_new None; session_emit_data 1 "x"; did_navigate] = 0)
    by (left; discriminate).
  split; [exact Hc|].
  exact (proj1 (proj2 (torn_down_sessions_are_silent posix_env sample_cfg None
                         [rpc_new None; did_navigate]
                         [rpc_new None; session_emit_data 1 "x"; did_navigate]
                         "S1" 0 "late" eq_refl Hc))).
Defined.

(** X6. On a reachable window the first navigation changes nothing but
    the navigation counter; every later navigation empties the registry,
    calls [removeAllListeners] and [destroy] on each registered session in
    registry order and nothing else, and leaves the warmer's hold on the
    warmed session as it was. *)
Theorem navigation_resets_sessions_after_the_first E cfg0 wd events :
  let w := run E (opened E cfg0 wd) events in
  let w' := exec E w did_navigate in
  match count is_navigation events with
  | 0 => w' = set_i 1 w
  | S _ => sessions w' = []
           /\ log w' = log w ++ flat_map teardown_calls (sessions w)
           /\ heap w' = detach_all (sessions w) (heap w)
           /\ initialSession w' = initialSession w
  end.
Proof.
  cbv zeta. pose proof (wf_reachable E cfg0 wd events) as Hw.
  pose proof (navigated_before E cfg0 wd events) as Hi.
  set (w := run E (opened E cfg0 wd) events) in *.
  unfold exec, step, attached. rewrite (wf_attached w Hw). unfold on_did_navigate.
  destruct (count is_navigation events) as [|n].
  - rewrite (proj2 Hi eq_refl). reflexivity.
  - destruct (i w =? 0)%N eqn:H0; [apply N.eqb_eq, Hi in H0; discriminate|].
    destruct (effects_deleteSessions (set_i (incr (i w)) w)) as [H1 [H2 H3]].
    { rewrite sessions_set_i. apply (wf_keys w Hw). }
    rewrite H1, H2, H3.
    rewrite deleteSessions_eq by (rewrite sessions_set_i; apply (wf_keys w Hw)).
    destruct w. auto.
Qed.

(** X7. No request and no session event destroys a session: [destroy] is
    called only by a clean-up and by a navigation after the first, and then
    once on each session registered at that moment, in registry order. *)
Theorem sessions_destroyed_only_by_teardown E cfg0 wd events e :
  let w := run E (opened E cfg0 wd) events in
  destroyed (log (exec E w e))
  = destroyed (log w) ++ (if tears_down w e then (sessions w).*2 else []).
Proof.
  cbv zeta. pose proof (wf_reachable E cfg0 wd events) as Hw.
  destruct (is_new e) eqn:He.
  - destruct e; try discriminate He. cbn [tears_down]. rewrite app_nil_r.
    unfold exec, step, attached. rewrite (wf_attached _ Hw).
    destruct (initialSession (run E (opened E cfg0 wd) events)) as [[uid r]|] eqn:Hi.
    + rewrite (on_new_warmed E options _ uid r Hi). cbn [log].
      rewrite destroyed_app. cbn. rewrite destroyed_map_emit, app_nil_r. reflexivity.
    + pose proof (on_new_fresh E options _ Hi) as Hnew. cbv zeta in Hnew.
      rewrite Hnew. cbn [log]. rewrite destroyed_app. cbn. rewrite app_nil_r. reflexivity.
  - apply (effects_exec E _ e Hw He).
Qed.

Lemma warmed_unrequested E pre : forall w,
  wf w -> served E 0 w -> count is_new pre = 0 ->
  (sessions w = [(uuid_v4 E 0, 0)] /\ destroyed (log w) = []
   \/ sessions w = [] /\ destroyed (log w) = [0]) ->
  wf (run E w pre)
  /\ (sessions (run E w pre) = [(uuid_v4 E 0, 0)] /\ destroyed (log (run E w pre)) = []
      \/ sessions (run E w pre) = [] /\ destroyed (log (run E w pre)) = [0]).
Proof.
  induction pre as [|e pre IH]; intros w Hw Hs Hn HP; [auto|].
  rewrite count_cons in Hn. destruct (is_new e) eqn:He; [discriminate|]. cbn in Hn.
  rewrite run_cons. apply IH; [apply wf_exec, Hw | | exact Hn |].
  - pose proof (served_exec E 0 w e Hw Hs) as H. rewrite He in H. exact H.
  - destruct (effects_exec E w e Hw He) as [H1 [_ H3]]. rewrite H1, H3.
    destruct (tears_down w e).
    + right. destruct HP as [[-> ->] | [-> ->]]; auto.
    + assert (Hu : unregistered_by w e = []).
      { destruct e; try reflexivity. cbn. unfold exit_listeners.
        destruct (heap w !! r) as [s|] eqn:Hr; [|reflexivity].
        destruct (sv_listeners _ _ _ Hs r s Hr) as [_ [-> | ->]]; reflexivity. }
      rewrite Hu, app_nil_r. exact HP.
Qed.

(** X8. If no ["new"] ever arrives, whatever else happens, the clean-up
    leaves the warmed session destroyed exactly once and no other session
    was ever destroyed: either the clean-up destroys it, or a navigation
    after the first already did and the clean-up finds the registry
    empty. *)
Theorem unrequested_warmed_session_destroyed_once E cfg0 wd pre :
  count is_new pre = 0 ->
  let w := run E (opened E cfg0 wd) (pre ++ [window_clean]) in
  destroyed (log w) = [0] /\ sessions w = [].
Proof.
  intros Hn. cbv zeta. rewrite run_snoc, opened_eq.
  destruct (warmed_unrequested E pre (warming E cfg0 wd []) (wf_warming E cfg0 wd [])
              (served_warming E cfg0 wd [] eq_refl) Hn) as [Hw HP].
  { left. split; reflexivity. }
  destruct (effects_exec E _ window_clean Hw eq_refl) as [H1 [_ H3]].
  cbn [tears_down] in *. rewrite H1, H3.
  destruct HP as [[-> ->] | [-> ->]]; auto.
Qed.

Lemma unrequested_warmed_session_destroyed_once_witness :
  count is_new [session_emit_data 0 "$ "; did_navigate; did_navigate; session_emit_exit 0] = 0
  /\ destroyed (log (run posix_env (opened posix_env sample_cfg None)
                       [session_emit_data 0 "$ "; did_navigate; did_navigate;
                        session_emit_exit 0; window_clean])) = [0].
Proof.
  split; [reflexivity|].
  exact (proj1 (unrequested_warmed_session_destroyed_once posix_env sample_cfg None
                  [session_emit_data 0 "$ "; did_navigate; did_navigate; session_emit_exit 0]
                  eq_refl)).
Defined.

(** * Configuration changes *)

Lemma notifications_app l1 l2 : notifications (l1 ++ l2) = notifications l1 + notifications l2.
Proof. unfold notifications. rewrite List.filter_app, length_app. reflexivity. Qed.

Lemma config_changed_log E w c :
  log (exec E w (config_changed c))
  = log w ++ webContents_send "config change"
      :: (if shell_differs (cfg w) c then [notify_shell_changed] else [])
      ++ [setBackgroundColor
            (toElectronBackgroundColor E
               match cfg_backgroundColor c with
               | Some (String a s) => String a s
               | _ => "#000"
               end)].
Proof.
  unfold exec, step, on_config_change, updateBackgroundColor, shell_differs.
  destruct (_ || _); destruct w; cbn; rewrite <- !app_assoc; reflexivity.
Qed.

Lemma config_changed_effect E w c :
  cfg (exec E w (config_changed c)) = c
  /\ notifications (log (exec E w (config_changed c)))
     = notifications (log w) + (if shell_differs (cfg w) c then 1 else 0)
  /\ sessions (exec E w (config_changed c)) = sessions w
  /\ heap (exec E w (config_changed c)) = heap w
  /\ emitted (exec E w (config_changed c)) = emitted w.
Proof.
  split; [|split; [|split; [|split]]].
  - unfold exec, step, on_config_change, updateBackgroundColor.
    destruct (_ || _); destruct w; reflexivity.
  - rewrite config_changed_log, notifications_app.
    destruct (shell_differs (cfg w) c); reflexivity.
  - unfold exec, step, on_config_change, updateBackgroundColor.
    destruct (_ || _); destruct w; reflexivity.
  - unfold exec, step, on_config_change, updateBackgroundColor.
    destruct (_ || _); destruct w; reflexivity.
  - unfold emitted. rewrite config_changed_log, omap_app.
    destruct (shell_differs (cfg w) c); cbn; rewrite app_nil_r; reflexivity.
Qed.

Lemma last_cons_default {A} (x : A) l d d' : List.last (x :: l) d = List.last (x :: l) d'.
Proof.
  revert x. induction l as [|y l IH]; intros x; [reflexivity|].
  change (List.last (y :: l) d = List.last (y :: l) d'). apply IH.
Qed.

(** X9. The user is told that the shell configuration changed exactly
    when a notified configuration differs in shell or shellArgs from the
    one notified before it (from the constructor's for the first): along
    any series of configuration changes the number of notifications is the
    number of such differences, the window ends with the last
    configuration, and neither the registry, the session objects nor the
    session messages are touched. *)
Theorem shell_change_notified_against_previous_config E (cs : list config) : forall w,
  let w' := run E w (map config_changed cs) in
  notifications (log w') = notifications (log w) + shell_changes (cfg w) cs
  /\ cfg w' = List.last cs (cfg w)
  /\ sessions w' = sessions w
  /\ heap w' = heap w
  /\ emitted w' = emitted w.
Proof.
  cbv zeta. induction cs as [|c cs IH]; intros w.
  - cbn. rewrite Nat.add_0_r. auto.
  - cbn [map]. rewrite run_cons.
    destruct (config_changed_effect E w c) as [H1 [H2 [H3 [H4 H5]]]].
    destruct (IH (exec E w (config_changed c))) as [G1 [G2 [G3 [G4 G5]]]].
    rewrite G1, G2, G3, G4, G5, H1, H2, H3, H4, H5. cbn [shell_changes].
    split; [lia|]. split; [|auto].
    destruct cs as [|c' cs]; [reflexivity|].
    change (List.last (c :: c' :: cs) (cfg w)) with (List.last (c' :: cs) (cfg w)).
    apply last_cons_default.
Qed.

(** * Quoting in context *)

(** X10. Under the single-quote strategy, data without control bytes
    stays one literal whatever follows it on the command line: a POSIX
    shell reads the quoted data followed by [rest] as the data followed by
    what it makes of [rest] alone, so the data can neither end the quoting
    early nor take in what comes after it. *)
Theorem quoted_data_does_not_leak_into_what_follows (sh data rest : string) :
  endsWith sh "cmd.exe" = false ->
  printable data = true ->
  sh_eval (escapedData sh data +:+ rest)
  = option_map (String.append data) (sh_eval rest).
Proof.
  intros H Hp. unfold escapedData, sh_eval. rewrite H.
  rewrite append_cons, append_assoc, sh_word_open, append_cons.
  apply sh_word_quoted_then, Hp.
Qed.

Lemma quoted_data_does_not_leak_into_what_follows_witness :
  endsWith "/bin/bash" "cmd.exe" = false
  /\ printable "a'; ls #" = true
  /\ sh_eval (escapedData "/bin/bash" "a'; ls #" +:+ "'b c'") = Some "a'; ls #b c".
Proof.
  split; [reflexivity|]. split; [reflexivity|].
  exact (quoted_data_does_not_leak_into_what_follows "/bin/bash" "a'; ls #" "'b c'"
           eq_refl eq_refl).
Defined.

(** * The ['init'] handler *)

Lemma callbacks_run_app l1 l2 : callbacks_run (l1 ++ l2) = callbacks_run l1 ++ callbacks_run l2.
Proof. apply omap_app. Qed.

Lemma updater_starts_app l1 l2 : updater_starts (l1 ++ l2) = updater_starts l1 + updater_starts l2.
Proof. unfold updater_starts. rewrite List.filter_app, length_app. reflexivity. Qed.

(** X11. Over any number of ['init'] messages in a row, a pending
    [app.windowCallback] is run by the first of them in place of the
    window's own callback and is deleted; every other ['init'] runs the
    callback given to the constructor, or, if none was given, the default
    that requests a term group. The updater is started by each ['init']
    unless the application runs in development. *)
Theorem pending_window_callback_runs_once (isDev : bool) (s : startup) (n : nat) :
  let s' := Nat.iter (S n) (on_init isDev) s in
  let own := default request_termgroup (fn s) in
  callbacks_run (startup_log s')
  = callbacks_run (startup_log s) ++ default own (app_windowCallback s) :: repeat own n
  /\ app_windowCallback s' = None
  /\ fn s' = Some own
  /\ updater_starts (startup_log s')
     = updater_starts (startup_log s) + (if isDev then 0 else S n).
Proof.
  cbv zeta. induction n as [|n IH].
  - cbn [Nat.iter nat_rect repeat]. unfold on_init. cbn [startup_log app_windowCallback fn].
    rewrite callbacks_run_app, updater_starts_app.
    destruct s as [[f|] [c|] l]; destruct isDev; cbn; auto.
  - destruct IH as [H1 [H2 [H3 H4]]].
    change (Nat.iter (S (S n)) (on_init isDev) s)
      with (on_init isDev (Nat.iter (S n) (on_init isDev) s)).
    set (s1 := Nat.iter (S n) (on_init isDev) s) in *.
    unfold on_init at 1 2 3 4. cbn [startup_log app_windowCallback fn].
    rewrite H2, H3, callbacks_run_app, updater_starts_app, H1, H4.
    split; [|split; [reflexivity|split; [reflexivity|]]].
    + rewrite <- app_assoc. f_equal. cbn [app]. f_equal.
      cbn [repeat]. rewrite (repeat_cons n). destruct isDev; reflexivity.
    + destruct isDev; cbn; lia.
Qed.

(** * The navigation interceptors *)

(** X12. A navigation the window is about to make is prevented exactly
    when its protocol is file:, http: or https:. Once the UI hands what
    [will-navigate] sends on as a ["data"] request for a registered
    session, a file url ends as one write of its path, quoted for the
    session's shell, whereas an http(s) url ends as one write of the url
    as it is, unquoted; any other url, and a url that is not a string,
    writes nothing. What [new-window] does never reaches a session. *)
Theorem dropped_file_is_quoted_dropped_link_is_not U E w k r url :
  rpc_attached w = true ->
  map_get k (sessions w) = Some r ->
  let sh := session_shell_of r w in
  let p := protocol_of U url in
  let web := is_protocol p "http:" || is_protocol p "https:" in
  run E w (omap (data_request k) (will_navigate U (Some url)))
  = (if is_protocol p "file:"
     then do_call (session_write r (escapedData sh (fileUriToPath U url))) w
     else if web then do_call (session_write r url) w
     else w)
  /\ head (will_navigate U (Some url))
     = (if is_protocol p "file:" || web then Some preventDefault else None)
  /\ run E w (omap (data_request k) (will_navigate U None)) = w
  /\ omap (data_request k) (new_window U (Some url)) = []
  /\ omap (data_request k) (new_window U None) = [].
Proof.
  intros Ha Hr. cbv zeta. unfold will_navigate, new_window.
  destruct (is_protocol (protocol_of U url) "file:");
    destruct (is_protocol (protocol_of U url) "http:" || is_protocol (protocol_of U url) "https:");
    cbn [omap list_omap data_request run fold_left head orb];
    unfold exec, step, destructure, on_data_req; cbn [d_uid d_data d_escaped];
    rewrite ?Ha, ?Hr; auto.
Qed.

Lemma dropped_file_is_quoted_dropped_link_is_not_witness :
  let w := exec posix_env (opened posix_env sample_cfg None) (rpc_new None) in
  run posix_env w (omap (data_request "S1") (will_navigate sample_urls (Some "file:///tmp/a b")))
  = do_call (session_write 0 "'/tmp/a b'") w
  /\ run posix_env w (omap (data_request "S1")
                        (will_navigate sample_urls (Some "https://example.org/$(id)")))
     = do_call (session_write 0 "https://example.org/$(id)") w.
Proof.
  cbv zeta. split.
  - exact (proj1 (dropped_file_is_quoted_dropped_link_is_not sample_urls posix_env
                    (exec posix_env (opened posix_env sample_cfg None) (rpc_new None))
                    "S1" 0 "file:///tmp/a b" eq_refl eq_refl)).
  - exact (proj1 (dropped_file_is_quoted_dropped_link_is_not sample_urls posix_env
                    (exec posix_env (opened posix_env sample_cfg None) (rpc_new None))
                    "S1" 0 "https://example.org/$(id)" eq_refl eq_refl)).
Defined.

(** * Before the channel is attached *)

Lemma unattached_exec E c l e :
  omap sent l = [] ->
  exists c' l', exec E (unattached c l) e = unattached c' l' /\ omap sent l' = [].
Proof.
  intros Hl. destruct e; unfold exec, step, attached, destructure; cbn [rpc_attached unattached clean];
    try (exists c, l; split; [reflexivity | exact Hl]).
  - unfold on_config_change, updateBackgroundColor, unattached.
    destruct (_ || _); cbn; eexists; eexists; (split; [reflexivity|]);
      rewrite !omap_app, Hl; reflexivity.
  - unfold clean_no_rpc, unattached. cbn. eexists. eexists. split; [reflexivity|].
    rewrite !omap_app, Hl. reflexivity.
Qed.

Lemma unattached_run E events : forall c l,
  omap sent l = [] ->
  exists c' l', run E (unattached c l) events = unattached c' l' /\ omap sent l' = [].
Proof.
  induction events as [|e events IH]; intros c l Hl.
  - exists c, l. auto.
  - rewrite run_cons. destruct (unattached_exec E c l e Hl) as [c1 [l1 [-> H1]]].
    apply IH, H1.
Qed.

(** X13. On win32, whatever arrives before [attachRPC] is called
    creates no session and sends nothing to the UI: only configuration
    changes and clean-ups act. The window attached afterwards starts like
    a fresh one, with the configuration it has by then: one warmed session,
    registered and listened to by the warmer, an empty buffer and a zero
    navigation counter. *)
Theorem events_before_attach_create_nothing E cfg0 wd events :
  win32 E = true ->
  let w := run E (Window E cfg0) events in
  rpc_attached w = false
  /\ sessions w = []
  /\ heap w = []
  /\ emitted w = []
  /\ attachRPC E wd w
     = mkWindow (cfg w) clean_with_rpc true wd
         [(uuid_v4 E 0, 0)] [warmed_session E [handleData (uuid_v4 E 0)] [handleExit]]
         [] (Some (uuid_v4 E 0, 0)) 0%N
         (log w ++ [createRPC; new_Session 0 (warmed_ctor E); plugins_onWindow;
                    plugins_subscribe])
         0 0.
Proof.
  intros Hwin. cbv zeta. unfold Window. rewrite Hwin.
  change (set_clean clean_without_rpc
            (mkWindow cfg0 clean_undefined false None [] [] [] None 0%N [config_subscribe] 0 0))
    with (unattached cfg0 [config_subscribe]).
  destruct (unattached_run E events cfg0 [config_subscribe] eq_refl) as [c [l [-> Hl]]].
  repeat (split; [first [reflexivity | exact Hl]|]).
  unfold attachRPC, unattached, createInitialSession, createSession. cbn.
  rewrite <- !app_assoc. reflexivity.
Qed.

Lemma events_before_attach_create_nothing_witness :
  win32 windows_env = true
  /\ heap (run windows_env (Window windows_env sample_cfg)
             [rpc_new None; did_navigate; did_navigate; session_emit_data 0 "x"]) = []
  /\ sessions (attachRPC windows_env (Some "C:\work")
                 (run windows_env (Window windows_env sample_cfg)
                    [rpc_new None; config_changed sample_cfg]))
     = [("S1", 0)].
Proof.
  split; [reflexivity|]. split.
  - exact (proj1 (proj2 (proj2 (events_before_attach_create_nothing windows_env sample_cfg None
                                  [rpc_new None; did_navigate; did_navigate;
                                   session_emit_data 0 "x"] eq_refl)))).
  - rewrite (proj2 (proj2 (proj2 (proj2
              (events_before_attach_create_nothing windows_env sample_cfg (Some "C:\work")
                 [rpc_new None; config_changed sample_cfg] eq_refl))))).
    reflexivity.
Defined.
